(** * HPC4DS, "Getting Started with GPUs" (Skills/GPUs/Part0-Introduction.ipynb)

    The notebook holds two code cells that talk to the [platform] and
    [numba.cuda] libraries and print diagnostics:

    - cell 5 (lines 93-109 of the .ipynb file): the device availability check;
    - cell 7 (lines 135-141): the compute-capability check.

    The cells are embedded as programs of a small monad that threads the
    kernel's global names, logs every library interaction and every [print],
    and propagates Python exceptions.  The libraries are not part of the
    repository: their answers are a parameter of every run.  An execution of
    the notebook runs the code cells top to bottom on a fresh kernel and
    stops at the first cell that raises. *)

From Stdlib Require Import ZArith String Ascii List Bool Lia Sorted.
From Stdlib Require Import Strings.Byte.
From Stdlib Require Import DecimalString.
From ExtLib Require Import Structures.Monad.
Import ListNotations.
Import MonadNotation.

Local Open Scope string_scope.
Local Open Scope Z_scope.
Local Open Scope monad_scope.

(** ** Python values and exceptions *)

(** An exception object.  [NameError] is what the interpreter raises for an
    unbound global; [PyErr] stands for whatever a library raises (its class
    name and message). *)
Inductive exn : Type :=
| NameError (name : string)
| PyErr (cls msg : string).

(** The result of evaluating an expression or running a statement. *)
Inductive result (A : Type) : Type :=
| Ok (a : A)
| Raise (e : exn).
Arguments Ok {A} a.
Arguments Raise {A} e.

Definition map_result {A B : Type} (f : A -> B) (r : result A) : result B :=
  match r with
  | Ok a => Ok (f a)
  | Raise e => Raise e
  end.

(** A device object, as [cuda.list_devices()] yields and
    [cuda.select_device] returns.  The notebook reads three attributes; an
    attribute access gives the stored value or raises. The compute capability
    is "stored as a tuple (major, minor)" (comment at line 137). *)
Module Device.
Record t : Type := mk {
  id : result Z;
  name : result (list byte);
  compute_capability : result (Z * Z)
}.
End Device.

(** The answers of the outside world during one execution of the notebook.
    Each of these functions is called at most once per execution and with
    fixed arguments (lemma [library_calls_at_most_once] below), so a table of
    answers covers every behaviour of the libraries. *)
Module Library.
Record t : Type := mk {
  import_module : string -> result unit;
  platform_node : result string;
  is_available : result bool;
  list_devices : result (list Device.t);
  select_device : Z -> result Device.t
}.
End Library.

(** The global names the two cells bind. [platform] and [cuda] are bound by
    the import statements; [device] by the [for] loop; [my_instance] by the
    assignment at line 135. *)
Module Globals.
Record t : Type := mk {
  platform : bool;
  cuda : bool;
  device : option Device.t;
  my_instance : option Device.t
}.
(** A freshly started kernel. *)
Definition fresh : t := mk false false None None.
End Globals.

(** ** The log of a run *)

Inductive call : Type :=
| Import (module : string)
| PlatformNode
| CudaIsAvailable
| CudaListDevices
| CudaSelectDevice (n : Z)
| GetAttr (var attr : string)
| Decode (b : list byte).

(** What the log keeps of an answer.  A device object is logged as [VDevice]
    and a list of them by its length: what the code learns of a device comes
    from the attribute reads that follow. *)
Inductive value : Type :=
| VNone
| VStr (s : string)
| VBool (b : bool)
| VInt (z : Z)
| VBytes (b : list byte)
| VTuple (major minor : Z)
| VDevice
| VDevices (count : nat).

(** [Lib c r]: the call [c] was made and answered [r].
    [Out line text]: the [print] statement at line [line] of the .ipynb file
    wrote [text] to standard output. *)
Inductive event : Type :=
| Lib (c : call) (r : result value)
| Out (line : nat) (text : string).

(** ** The monad of cell code *)

Definition M (A : Type) : Type :=
  Globals.t -> Globals.t * list event * result A.

Definition M_ret {A : Type} (a : A) : M A :=
  fun g => (g, [], Ok a).

(** Sequencing: an exception ends the computation, nothing catches it. *)
Definition M_bind {A B : Type} (m : M A) (k : A -> M B) : M B :=
  fun g =>
    match m g with
    | (g1, t1, Ok a) =>
        match k a g1 with
        | (g2, t2, r) => (g2, (t1 ++ t2)%list, r)
        end
    | (g1, t1, Raise e) => (g1, t1, Raise e)
    end.

#[export] Instance Monad_M : Monad M :=
  {| ret := @M_ret; bind := @M_bind |}.

Definition globals_of {A : Type} (r : Globals.t * list event * result A) : Globals.t :=
  fst (fst r).
Definition events_of {A : Type} (r : Globals.t * list event * result A) : list event :=
  snd (fst r).
Definition result_of {A : Type} (r : Globals.t * list event * result A) : result A :=
  snd r.

(** ** Builtins *)

Definition newline : string := String "010"%char EmptyString.

(** [print(a1, ..., an)]: the arguments, already converted by [str], separated
    by one space and followed by a newline. *)
Definition print_text (args : list string) : string :=
  String.concat " " args ++ newline.

Definition print (line : nat) (args : list string) : M unit :=
  fun g => (g, [Out line (print_text args)], Ok tt).

(** [str] of a Python int. *)
Definition str_int (z : Z) : string :=
  NilZero.string_of_int (Z.to_int z).

(** A call into a library: logged with its answer. *)
Definition lib_call {A : Type} (c : call) (inj : A -> value) (r : result A) : M A :=
  fun g => (g, [Lib c (map_result inj r)], r).

(** Reading a global name. *)
Definition load_module (name : string) (bound : Globals.t -> bool) : M unit :=
  fun g => (g, [], if bound g then Ok tt else Raise (NameError name)).

Definition load_object (name : string) (var : Globals.t -> option Device.t) : M Device.t :=
  fun g => (g, [], match var g with Some d => Ok d | None => Raise (NameError name) end).

Definition assign (f : Globals.t -> Globals.t) : M unit :=
  fun g => (f g, [], Ok tt).

(** [for x in xs: body]. *)
Fixpoint for_each {A : Type} (xs : list A) (body : A -> M unit) : M unit :=
  match xs with
  | [] => ret tt
  | x :: rest => body x ;; for_each rest body
  end.

(** [a and b] in a condition: [b] is evaluated only when [a] is true. *)
Definition and_ (a b : M bool) : M bool :=
  x <- a ;; if x then b else ret false.

(** ** The string literals of the two cells *)

Definition rule : string :=
  "========================================================".

Definition no_device_message : string :=
  "There doesn't appear to be a CUDA capable device in this system".

Definition insufficient_message : string :=
  "The selected device does not have a sufficient compute capability".

Section Notebook.

(** [bytes.decode()], a builtin: the same function in every run. *)
Variable bytes_decode : list byte -> result string.

Section Cells.
Variable L : Library.t.

(** [import platform] *)
Definition import_platform : M unit :=
  lib_call (Import "platform") (fun _ => VNone) (Library.import_module L "platform") ;;
  assign (fun g => Globals.mk true (Globals.cuda g) (Globals.device g) (Globals.my_instance g)).

(** [from numba import cuda] *)
Definition from_numba_import_cuda : M unit :=
  lib_call (Import "numba.cuda") (fun _ => VNone) (Library.import_module L "numba.cuda") ;;
  assign (fun g => Globals.mk (Globals.platform g) true (Globals.device g) (Globals.my_instance g)).

(** [platform.node()] *)
Definition platform_node : M string :=
  load_module "platform" Globals.platform ;;
  lib_call PlatformNode VStr (Library.platform_node L).

(** [cuda.is_available()] *)
Definition cuda_is_available : M bool :=
  load_module "cuda" Globals.cuda ;;
  lib_call CudaIsAvailable VBool (Library.is_available L).

(** [cuda.list_devices()] *)
Definition cuda_list_devices : M (list Device.t) :=
  load_module "cuda" Globals.cuda ;;
  lib_call CudaListDevices (fun ds => VDevices (length ds))
           (Library.list_devices L).

(** [cuda.select_device(n)] *)
Definition cuda_select_device (n : Z) : M Device.t :=
  load_module "cuda" Globals.cuda ;;
  lib_call (CudaSelectDevice n) (fun _ => VDevice) (Library.select_device L n).

(** [device = d], the binding a [for] loop makes at each iteration. *)
Definition assign_device (d : Device.t) : M unit :=
  assign (fun g => Globals.mk (Globals.platform g) (Globals.cuda g) (Some d) (Globals.my_instance g)).

(** [my_instance = d] *)
Definition assign_my_instance (d : Device.t) : M unit :=
  assign (fun g => Globals.mk (Globals.platform g) (Globals.cuda g) (Globals.device g) (Some d)).

(** [device.id] *)
Definition device_id : M Z :=
  d <- load_object "device" Globals.device ;;
  lib_call (GetAttr "device" "id") VInt (Device.id d).

(** [device.name] *)
Definition device_name : M (list byte) :=
  d <- load_object "device" Globals.device ;;
  lib_call (GetAttr "device" "name") VBytes (Device.name d).

(** [my_instance.compute_capability] *)
Definition my_instance_compute_capability : M (Z * Z) :=
  d <- load_object "my_instance" Globals.my_instance ;;
  lib_call (GetAttr "my_instance" "compute_capability")
           (fun c => VTuple (fst c) (snd c)) (Device.compute_capability d).

(** [my_instance.name] *)
Definition my_instance_name : M (list byte) :=
  d <- load_object "my_instance" Globals.my_instance ;;
  lib_call (GetAttr "my_instance" "name") VBytes (Device.name d).

(** [b.decode()] *)
Definition decode (b : list byte) : M string :=
  lib_call (Decode b) VStr (bytes_decode b).

(** One iteration of the loop at lines 105-106, [device] being bound to
    [d]: the arguments of [print] are evaluated left to right. *)
Definition report_device (d : Device.t) : M unit :=
  assign_device d ;;
  i <- device_id ;;
  n <- device_name ;;
  s <- decode n ;;
  print 106 ["Device ID : "; str_int i; " : "; s].

(** Cell 5, the device availability check (lines 93-109). *)
Definition cell5 : M unit :=
  import_platform ;;
  from_numba_import_cuda ;;
  print 97 [rule] ;;
  (node <- platform_node ;;
   print 98 ["This notebook is running on "; node]) ;;
  print 99 [rule] ;;
  available <- cuda_is_available ;;
  if (available : bool) then
    devices <- cuda_list_devices ;;
    for_each devices report_device
  else
    print 109 [no_device_message].

(** Cell 7, the compute-capability check (lines 135-141). *)
Definition cell7 : M unit :=
  (d <- cuda_select_device 0 ;; assign_my_instance d) ;;
  sufficient <-
    and_ (c <- my_instance_compute_capability ;; ret (fst c >=? 2))
         (c <- my_instance_compute_capability ;; ret (snd c >=? 1)) ;;
  if (sufficient : bool) then
    n <- my_instance_name ;;
    s <- decode n ;;
    print 139 ["The selected device ("; s; ") has a sufficient compute capability"]
  else
    print 141 [insufficient_message].

End Cells.
End Notebook.

(** ** Running the notebook *)

(** What one executed cell leaves behind: its position in the notebook's
    cell list, its log and how it ended. *)
Record cell_run : Type := {
  index : nat;
  log : list event;
  status : result unit
}.

(** Modelled from the spec: the program that executes a notebook is not in
    the repository.  "Execution is single-threaded, synchronous, and runs top
    to bottom exactly once per notebook execution" (section 5): the code
    cells are run once each, in the order of the notebook's cell list, on one
    kernel, each starting from the globals its predecessor left.  A cell that
    raises ends the execution, as notebook executors do unless told
    otherwise; an execution in which cell 5 completes does not meet that
    rule before cell 7. *)
Fixpoint run_cells (cells : list (nat * M unit)) (g : Globals.t) : list cell_run :=
  match cells with
  | [] => []
  | (i, code) :: rest =>
      match code g with
      | (g', t, Ok _) => {| index := i; log := t; status := Ok tt |} :: run_cells rest g'
      | (_, t, Raise e) => [{| index := i; log := t; status := Raise e |}]
      end
  end.

(** The notebook's cell list holds markdown at positions 0-4, 6 and 8, the two
    code cells at positions 5 and 7, and an empty code cell at position 9. *)
Definition notebook (bytes_decode : list byte -> result string) (L : Library.t)
  : list (nat * M unit) :=
  [(5%nat, cell5 bytes_decode L); (7%nat, cell7 bytes_decode L)].

Definition run_notebook (bytes_decode : list byte -> result string) (L : Library.t)
  : list cell_run :=
  run_cells (notebook bytes_decode L) Globals.fresh.

(** ** Observations on a log *)

(** The text written to standard output, one entry per [print]. *)
Fixpoint stdout (t : list event) : list string :=
  match t with
  | [] => []
  | Out _ text :: rest => text :: stdout rest
  | Lib _ _ :: rest => stdout rest
  end.

(** The source lines of the [print] statements executed, in order. *)
Fixpoint printed_lines (t : list event) : list nat :=
  match t with
  | [] => []
  | Out line _ :: rest => line :: printed_lines rest
  | Lib _ _ :: rest => printed_lines rest
  end.

(** The text written by the [print] statement at a given line. *)
Fixpoint stdout_at (line : nat) (t : list event) : list string :=
  match t with
  | [] => []
  | Out l text :: rest =>
      if Nat.eqb l line then text :: stdout_at line rest else stdout_at line rest
  | Lib _ _ :: rest => stdout_at line rest
  end.

Definition printed (line : nat) (t : list event) : Prop :=
  exists text, In (Out line text) t.

Definition called (c : call) (t : list event) : Prop :=
  exists r, In (Lib c r) t.

Definition call_eqb (c1 c2 : call) : bool :=
  match c1, c2 with
  | Import m1, Import m2 => String.eqb m1 m2
  | PlatformNode, PlatformNode => true
  | CudaIsAvailable, CudaIsAvailable => true
  | CudaListDevices, CudaListDevices => true
  | CudaSelectDevice n1, CudaSelectDevice n2 => Z.eqb n1 n2
  | GetAttr v1 a1, GetAttr v2 a2 => String.eqb v1 v2 && String.eqb a1 a2
  | Decode b1, Decode b2 =>
      if list_eq_dec Byte.byte_eq_dec b1 b2 then true else false
  | _, _ => false
  end.

(** How many times a call was made. *)
Fixpoint count_calls (c : call) (t : list event) : nat :=
  match t with
  | [] => 0%nat
  | Lib c' _ :: rest =>
      if call_eqb c' c then S (count_calls c rest) else count_calls c rest
  | Out _ _ :: rest => count_calls c rest
  end.

(** The messages of the compute-capability check (lines 139 and 141), as
    [print] writes them. *)
Definition sufficient_text (device_name : string) : string :=
  print_text ["The selected device ("; device_name;
              ") has a sufficient compute capability"].

Definition insufficient_text : string :=
  print_text [insufficient_message].

(** The line of the enumeration loop (line 106). *)
Definition device_text (device_id : Z) (device_name : string) : string :=
  print_text ["Device ID : "; str_int device_id; " : "; device_name].

Definition no_device_text : string :=
  print_text [no_device_message].

(** ** Further observations *)

(** The detection call answered [b]. *)
Definition reported (b : bool) (t : list event) : Prop :=
  In (Lib CudaIsAvailable (Ok (VBool b))) t.

(** The log of the cell at position [i] in an execution of the notebook;
    empty if that cell was not run. *)
Definition log_of_cell (i : nat) (runs : list cell_run) : list event :=
  flat_map (fun r => if Nat.eqb (index r) i then log r else []) runs.

Definition read_capability : call := GetAttr "my_instance" "compute_capability".

Definition library_functions : list call :=
  [ Import "platform"; Import "numba.cuda"; PlatformNode;
    CudaIsAvailable; CudaListDevices; CudaSelectDevice 0 ].

(** ** The logs and state updates of the runs *)

(** The globals once the import statements of cell 5 have run. *)
Definition imported : Globals.t := Globals.mk true true None None.

(** The imports of cell 5 as a state update. *)
Definition bind_modules (g : Globals.t) : Globals.t :=
  Globals.mk true true (Globals.device g) (Globals.my_instance g).

(** [device = d] as a state update. *)
Definition bind_device (g : Globals.t) (d : Device.t) : Globals.t :=
  Globals.mk (Globals.platform g) (Globals.cuda g) (Some d) (Globals.my_instance g).

(** [my_instance = d] as a state update. *)
Definition bind_my_instance (g : Globals.t) (d : Device.t) : Globals.t :=
  Globals.mk (Globals.platform g) (Globals.cuda g) (Globals.device g) (Some d).

(** The log of lines 93-99 on a host named [node]. *)
Definition banner (node : string) : list event :=
  [ Lib (Import "platform") (Ok VNone);
    Lib (Import "numba.cuda") (Ok VNone);
    Out 97 (print_text [rule]);
    Lib PlatformNode (Ok (VStr node));
    Out 98 (print_text ["This notebook is running on "; node]);
    Out 99 (print_text [rule]) ].

(** What lines 97-99 write on a host named [node]. *)
Definition banner_text (node : string) : list string :=
  [ print_text [rule];
    print_text ["This notebook is running on "; node];
    print_text [rule] ].

Definition select_event : event := Lib (CudaSelectDevice 0) (Ok VDevice).

Definition capability_event (major minor : Z) : event :=
  Lib (GetAttr "my_instance" "compute_capability") (Ok (VTuple major minor)).

(** ** Properties of logs and of computations *)

(** The events of the loop body. *)
Definition is_loop_event (ev : event) : bool :=
  match ev with
  | Lib (GetAttr var _) _ => String.eqb var "device"
  | Lib (Decode _) _ => true
  | Lib _ _ => false
  | Out line _ => Nat.eqb line 106
  end.

Definition is_loop_call (c : call) : bool :=
  match c with
  | GetAttr var _ => String.eqb var "device"
  | Decode _ => true
  | _ => false
  end.

(** A device whose identifier is [i] and whose name decodes to [s]. *)
Definition readable (bytes_decode : list byte -> result string)
  (d : Device.t) (i : Z) (s : string) : Prop :=
  Device.id d = Ok i /\
  exists b, Device.name d = Ok b /\ bytes_decode b = Ok s.

(** A call that ended in an exception. *)
Definition raising (ev : event) : bool :=
  match ev with
  | Lib _ (Raise _) => true
  | _ => false
  end.

(** A log in which no call raised. *)
Definition clean (t : list event) : Prop :=
  forallb (fun ev => negb (raising ev)) t = true.

(** How a log and a result go together when nothing is caught: a run that
    completes has a clean log; a run that ends in [e] has a log whose last
    event is the call that raised [e], the only one that raised, or it ends
    in a [NameError] of the interpreter after a clean log. *)
Definition uncaught {A : Type} (t : list event) (r : result A) : Prop :=
  match r with
  | Ok _ => clean t
  | Raise e =>
      (exists pre c, t = (pre ++ [Lib c (Raise e)])%list /\ clean pre) \/
      ((exists name, e = NameError name) /\ clean t)
  end.

Definition propagates {A : Type} (m : M A) : Prop :=
  forall g, uncaught (events_of (m g)) (result_of (m g)).

(** The [print] statements of a log ran in the order of their lines, all of
    them between lines [lo] and [hi]. *)
Definition within (lo hi : nat) (t : list event) : Prop :=
  StronglySorted Nat.le (printed_lines t) /\
  Forall (fun line => (lo <= line <= hi)%nat) (printed_lines t).

Definition prints_within {A : Type} (lo hi : nat) (m : M A) : Prop :=
  forall g, within lo hi (events_of (m g)).

(** A computation that prints nothing. *)
Definition silent {A : Type} (m : M A) : Prop :=
  forall g, printed_lines (events_of (m g)) = [].

(** Python's order on tuples, [(a, b) >= (c, d)]: lexicographic. A version
    number "at least 2.1" in this order is what the text above cell 7 asks
    for ("the examples for this course require a minimum of 2.1"). *)
Definition tuple_geb (v w : Z * Z) : bool :=
  (fst v >? fst w) || ((fst v =? fst w) && (snd v >=? snd w)).

(** The statement that the check prints one of two constant messages, picked
    by the comparison alone: there would be two strings [pass] and [fail]
    such that every completed check of a device with a readable capability
    prints [pass] if the comparison holds and [fail] otherwise. *)
Definition two_fixed_messages (bytes_decode : list byte -> result string) : Prop :=
  exists pass fail : string,
    forall L g h major minor,
      Globals.cuda g = true ->
      Library.select_device L 0 = Ok h ->
      Device.compute_capability h = Ok (major, minor) ->
      result_of (cell7 bytes_decode L g) = Ok tt ->
      stdout (events_of (cell7 bytes_decode L g)) =
      [if (major >=? 2) && (minor >=? 1) then pass else fail].

(** A device on which the loop body fails with [e]: reading its identifier
    raises, or reading its name raises, or its name does not decode. *)
Definition unreadable (bytes_decode : list byte -> result string)
  (d : Device.t) (e : exn) : Prop :=
  Device.id d = Raise e \/
  (exists i, Device.id d = Ok i /\
     (Device.name d = Raise e \/
      exists b, Device.name d = Ok b /\ bytes_decode b = Raise e)).

(** The value of [device] after a loop over [ds] that ran to its end. *)
Definition device_after (ds : list Device.t) (before : option Device.t)
  : option Device.t :=
  last (map Some ds) before.

(** The calls that occur in the text of cell 5. *)
Definition cell5_call (c : call) : bool :=
  match c with
  | Import module => String.eqb module "platform" || String.eqb module "numba.cuda"
  | PlatformNode | CudaIsAvailable | CudaListDevices => true
  | CudaSelectDevice _ => false
  | GetAttr var attr =>
      String.eqb var "device" && (String.eqb attr "id" || String.eqb attr "name")
  | Decode _ => true
  end.

(** The calls that occur in the text of cell 7. *)
Definition cell7_call (c : call) : bool :=
  match c with
  | CudaSelectDevice n => n =? 0
  | GetAttr var attr =>
      String.eqb var "my_instance" &&
      (String.eqb attr "compute_capability" || String.eqb attr "name")
  | Decode _ => true
  | _ => false
  end.

(** Every call of a log satisfies [allowed]. *)
Definition calls_only (allowed : call -> bool) (t : list event) : Prop :=
  forallb (fun ev => match ev with Lib c _ => allowed c | Out _ _ => true end) t = true.

(** Two answers to [cuda.select_device(0)] that the compute-capability check
    cannot tell apart: the same exception, or two devices whose
    [compute_capability] and [name] read alike.  (The check reads nothing
    else of the device; equal answers are a case of this.) *)
Definition same_answers (r1 r2 : result Device.t) : Prop :=
  match r1, r2 with
  | Ok h1, Ok h2 =>
      Device.compute_capability h1 = Device.compute_capability h2 /\
      Device.name h1 = Device.name h2
  | Raise e1, Raise e2 => e1 = e2
  | _, _ => False
  end.

(** ** Sample environments *)

(** A decoder for the runs below: ASCII bytes decode to themselves. *)
Definition decode_ascii (b : list byte) : result string :=
  if forallb (fun x => (Byte.to_nat x <? 128)%nat) b
  then Ok (string_of_list_byte b)
  else Raise (PyErr "UnicodeDecodeError" "invalid start byte").

Definition no_driver : exn := PyErr "CudaSupportError" "Error at driver init".

(** The host of the output stored with cell 5 (lines 85-88): no CUDA device. *)
Definition ridcully : Library.t := {|
  Library.import_module := fun _ => Ok tt;
  Library.platform_node := Ok "ridcully";
  Library.is_available := Ok false;
  Library.list_devices := Raise no_driver;
  Library.select_device := fun _ => Raise no_driver
|}.

(** The device of the output stored with cell 7 (line 130). *)
Definition gt710 : Device.t :=
  Device.mk (Ok 0) (Ok (list_byte_of_string "GeForce GT 710")) (Ok (3, 5)).

Definition k20 : Device.t :=
  Device.mk (Ok 1) (Ok (list_byte_of_string "Tesla K20")) (Ok (3, 5)).

(** An early Fermi card: capability 2.0. *)
Definition gtx480 : Device.t :=
  Device.mk (Ok 0) (Ok (list_byte_of_string "GeForce GTX 480")) (Ok (2, 0)).

(** A Kepler card of capability 3.0. *)
Definition gtx680 : Device.t :=
  Device.mk (Ok 0) (Ok (list_byte_of_string "GeForce GTX 680")) (Ok (3, 0)).

(** A pre-Fermi card: capability 1.3. *)
Definition gtx280 : Device.t :=
  Device.mk (Ok 0) (Ok (list_byte_of_string "GeForce GTX 280")) (Ok (1, 3)).

(** A host whose devices are [ds], in this order; device 0 is the first. *)
Definition host (ds : list Device.t) : Library.t := {|
  Library.import_module := fun _ => Ok tt;
  Library.platform_node := Ok "ridcully";
  Library.is_available := Ok (negb (Nat.eqb (length ds) 0));
  Library.list_devices := Ok ds;
  Library.select_device := fun n =>
    match nth_error ds (Z.to_nat n) with
    | Some d => Ok d
    | None => Raise no_driver
    end
|}.

(** A device whose name is not valid text. *)
Definition garbled : Device.t :=
  Device.mk (Ok 1) (Ok [Byte.xff; Byte.xfe]) (Ok (3, 5)).

(** A host on which the availability check finds nothing although device 0
    can be selected. *)
Definition undetected : Library.t := {|
  Library.import_module := fun _ => Ok tt;
  Library.platform_node := Ok "godzilla";
  Library.is_available := Ok false;
  Library.list_devices := Raise no_driver;
  Library.select_device := fun _ => Ok gt710
|}.

(** A host on which the CUDA driver fails when it is initialised. *)
Definition broken_driver : Library.t := {|
  Library.import_module := fun _ => Ok tt;
  Library.platform_node := Ok "ridcully";
  Library.is_available := Raise no_driver;
  Library.list_devices := Raise no_driver;
  Library.select_device := fun _ => Raise no_driver
|}.

(** * Theorems *)

(** ** The model against the outputs stored in the notebook *)

Example stored_output_cell5 :
  stdout (events_of (cell5 decode_ascii ridcully Globals.fresh)) =
  [ rule ++ newline;
    "This notebook is running on  ridcully" ++ newline;
    rule ++ newline;
    "There doesn't appear to be a CUDA capable device in this system" ++ newline ].
Proof. reflexivity. Qed.

Example stored_output_cell7 :
  map (fun r => stdout (log r)) (run_notebook decode_ascii (host [gt710])) =
  [ [ rule ++ newline;
      "This notebook is running on  ridcully" ++ newline;
      rule ++ newline;
      "Device ID :  0  :  GeForce GT 710" ++ newline ];
    [ "The selected device ( GeForce GT 710 ) has a sufficient compute capability"
        ++ newline ] ].
Proof. reflexivity. Qed.

(** The check on cards of capability 2.0, 1.3 and 3.0. *)
Example output_for_gtx480 :
  stdout (events_of (cell7 decode_ascii (host [gtx480]) imported)) =
  [insufficient_message ++ newline].
Proof. reflexivity. Qed.

Example output_for_gtx280 :
  events_of (cell7 decode_ascii (host [gtx280]) imported) =
  [ select_event; capability_event 1 3;
    Out 141 (insufficient_message ++ newline) ].
Proof. reflexivity. Qed.

Example output_for_gtx680 :
  events_of (cell7 decode_ascii (host [gtx680]) imported) =
  [ select_event; capability_event 3 0; capability_event 3 0;
    Out 141 (insufficient_message ++ newline) ].
Proof. reflexivity. Qed.

(** A kernel on which cell 5 has not run does not know [cuda]. *)
Example cell7_on_fresh_kernel :
  cell7 decode_ascii (host [gt710]) Globals.fresh =
  (Globals.fresh, [], Raise (NameError "cuda")).
Proof. reflexivity. Qed.

(** ** Runs of the compute-capability check *)

Arguments print_text : simpl never.
Arguments cell5 : simpl never.
Arguments cell7 : simpl never.
Arguments report_device : simpl never.

Ltac unfold_cell :=
  unfold cell5, cell7, and_, import_platform, from_numba_import_cuda,
    platform_node, cuda_is_available, cuda_list_devices, cuda_select_device,
    assign_device, assign_my_instance, device_id, device_name,
    my_instance_compute_capability, my_instance_name, decode,
    print, lib_call, load_module, load_object, assign;
  cbn; unfold M_bind, M_ret; cbn.

Section Cell7.
Variable bytes_decode : list byte -> result string.
Variable L : Library.t.
Variable g : Globals.t.
Hypothesis cuda_bound : Globals.cuda g = true.

Lemma cell7_select_raises e :
  Library.select_device L 0 = Raise e ->
  cell7 bytes_decode L g = (g, [Lib (CudaSelectDevice 0) (Raise e)], Raise e).
Proof.
  intros Hsel. unfold_cell. rewrite cuda_bound; cbn. rewrite Hsel. reflexivity.
Qed.

Section Selected.
Variable h : Device.t.
Hypothesis selected : Library.select_device L 0 = Ok h.

Lemma cell7_capability_raises e :
  Device.compute_capability h = Raise e ->
  cell7 bytes_decode L g =
  (bind_my_instance g h,
   [select_event; Lib (GetAttr "my_instance" "compute_capability") (Raise e)],
   Raise e).
Proof.
  intros Hcc. unfold_cell. rewrite cuda_bound; cbn. rewrite selected; cbn.
  rewrite Hcc. reflexivity.
Qed.

Section Capability.
Variables major minor : Z.
Hypothesis capability : Device.compute_capability h = Ok (major, minor).

Lemma cell7_major_low :
  major < 2 ->
  cell7 bytes_decode L g =
  (bind_my_instance g h,
   [select_event; capability_event major minor; Out 141 insufficient_text],
   Ok tt).
Proof.
  intros Hlow. unfold_cell. rewrite cuda_bound; cbn. rewrite selected; cbn.
  rewrite capability; cbn.
  destruct (Z.geb_spec major 2) as [?|_]; [lia|]. reflexivity.
Qed.

Lemma cell7_minor_low :
  2 <= major -> minor < 1 ->
  cell7 bytes_decode L g =
  (bind_my_instance g h,
   [select_event; capability_event major minor; capability_event major minor;
    Out 141 insufficient_text],
   Ok tt).
Proof.
  intros Hmajor Hlow. unfold_cell. rewrite cuda_bound; cbn. rewrite selected; cbn.
  rewrite capability; cbn.
  destruct (Z.geb_spec major 2) as [_|?]; [|lia]. cbn.
  rewrite capability; cbn.
  destruct (Z.geb_spec minor 1) as [?|_]; [lia|]. reflexivity.
Qed.

Lemma cell7_name_raises e :
  2 <= major -> 1 <= minor ->
  Device.name h = Raise e ->
  cell7 bytes_decode L g =
  (bind_my_instance g h,
   [select_event; capability_event major minor; capability_event major minor;
    Lib (GetAttr "my_instance" "name") (Raise e)],
   Raise e).
Proof.
  intros Hmajor Hminor Hname. unfold_cell. rewrite cuda_bound; cbn.
  rewrite selected; cbn. rewrite capability; cbn.
  destruct (Z.geb_spec major 2) as [_|?]; [|lia]. cbn.
  rewrite capability; cbn.
  destruct (Z.geb_spec minor 1) as [_|?]; [|lia]. cbn.
  rewrite Hname. reflexivity.
Qed.

Lemma cell7_decode_raises b e :
  2 <= major -> 1 <= minor ->
  Device.name h = Ok b -> bytes_decode b = Raise e ->
  cell7 bytes_decode L g =
  (bind_my_instance g h,
   [select_event; capability_event major minor; capability_event major minor;
    Lib (GetAttr "my_instance" "name") (Ok (VBytes b));
    Lib (Decode b) (Raise e)],
   Raise e).
Proof.
  intros Hmajor Hminor Hname Hdec. unfold_cell. rewrite cuda_bound; cbn.
  rewrite selected; cbn. rewrite capability; cbn.
  destruct (Z.geb_spec major 2) as [_|?]; [|lia]. cbn.
  rewrite capability; cbn.
  destruct (Z.geb_spec minor 1) as [_|?]; [|lia]. cbn.
  rewrite Hname; cbn. rewrite Hdec. reflexivity.
Qed.

Lemma cell7_sufficient b s :
  2 <= major -> 1 <= minor ->
  Device.name h = Ok b -> bytes_decode b = Ok s ->
  cell7 bytes_decode L g =
  (bind_my_instance g h,
   [select_event; capability_event major minor; capability_event major minor;
    Lib (GetAttr "my_instance" "name") (Ok (VBytes b));
    Lib (Decode b) (Ok (VStr s));
    Out 139 (sufficient_text s)],
   Ok tt).
Proof.
  intros Hmajor Hminor Hname Hdec. unfold_cell. rewrite cuda_bound; cbn.
  rewrite selected; cbn. rewrite capability; cbn.
  destruct (Z.geb_spec major 2) as [_|?]; [|lia]. cbn.
  rewrite capability; cbn.
  destruct (Z.geb_spec minor 1) as [_|?]; [|lia]. cbn.
  rewrite Hname; cbn. rewrite Hdec. reflexivity.
Qed.

End Capability.
End Selected.
End Cell7.

(** Case analysis on a membership in an explicit log. *)
Ltac in_log :=
  unfold events_of, printed, called, select_event, capability_event in *; cbn in *;
  repeat match goal with
    | H : False |- _ => destruct H
    | H : _ \/ _ |- _ => destruct H
    | H : exists _, _ |- _ => destruct H
    | H : @eq event _ _ |- _ => first [discriminate H | inversion H; clear H; subst]
    end.

(** C1. In the compute-capability check, for a selected device whose
    capability tuple is [(major, minor)]: the sufficiency message (line 139)
    is printed only if [major >= 2] and [minor >= 1], and, the name of the
    device being read and decoded to [s], if and only if so, as the only
    output; otherwise the insufficiency message (line 141) is printed, as the
    only output. *)
Theorem sufficient_iff_both_thresholds :
  forall bytes_decode L g h major minor,
    Globals.cuda g = true ->
    Library.select_device L 0 = Ok h ->
    Device.compute_capability h = Ok (major, minor) ->
    let t := events_of (cell7 bytes_decode L g) in
    (printed 139 t -> major >= 2 /\ minor >= 1) /\
    (forall b s,
       Device.name h = Ok b -> bytes_decode b = Ok s ->
       (In (Out 139 (sufficient_text s)) t <-> major >= 2 /\ minor >= 1) /\
       (major >= 2 /\ minor >= 1 -> stdout t = [sufficient_text s])) /\
    (printed 141 t <-> ~ (major >= 2 /\ minor >= 1)) /\
    (~ (major >= 2 /\ minor >= 1) -> stdout t = [insufficient_text]).
Proof.
  intros dec L g h major minor Hg Hsel Hcc t.
  destruct (Z_lt_le_dec major 2) as [Hlow|Hmajor].
  { subst t. rewrite (cell7_major_low dec L g Hg h Hsel major minor Hcc Hlow).
    repeat split; intros; in_log; try lia; try tauto.
    exists insufficient_text. tauto. }
  destruct (Z_lt_le_dec minor 1) as [Hlow|Hminor].
  { subst t. rewrite (cell7_minor_low dec L g Hg h Hsel major minor Hcc Hmajor Hlow).
    repeat split; intros; in_log; try lia; try tauto.
    exists insufficient_text. tauto. }
  destruct (Device.name h) as [b0|e] eqn:Hname.
  - destruct (dec b0) as [s0|e] eqn:Hdec.
    + subst t.
      rewrite (cell7_sufficient dec L g Hg h Hsel major minor Hcc b0 s0
                 Hmajor Hminor Hname Hdec).
      repeat split; intros; in_log; try lia; try tauto;
        match goal with
        | Hb : Ok b0 = Ok ?b, Hs : dec ?b = Ok ?s |- _ =>
            inversion Hb; subst b; rewrite Hdec in Hs; inversion Hs; subst s
        end; tauto.
    + subst t.
      rewrite (cell7_decode_raises dec L g Hg h Hsel major minor Hcc b0 e
                 Hmajor Hminor Hname Hdec).
      repeat split; intros; in_log; try lia; try tauto; congruence.
  - subst t.
    rewrite (cell7_name_raises dec L g Hg h Hsel major minor Hcc e
               Hmajor Hminor Hname).
    repeat split; intros; in_log; try lia; try tauto; congruence.
Qed.

Lemma sufficient_iff_both_thresholds_witness :
  let t := events_of (cell7 decode_ascii (host [gt710]) imported) in
  Device.compute_capability gt710 = Ok (3, 5) /\
  (printed 139 t -> 3 >= 2 /\ 5 >= 1) /\
  (forall b s,
     Device.name gt710 = Ok b -> decode_ascii b = Ok s ->
     (In (Out 139 (sufficient_text s)) t <-> 3 >= 2 /\ 5 >= 1) /\
     (3 >= 2 /\ 5 >= 1 -> stdout t = [sufficient_text s])) /\
  (printed 141 t <-> ~ (3 >= 2 /\ 5 >= 1)) /\
  (~ (3 >= 2 /\ 5 >= 1) -> stdout t = [insufficient_text]).
Proof.
  split; [reflexivity|].
  apply (sufficient_iff_both_thresholds decode_ascii (host [gt710]) imported gt710 3 5);
    reflexivity.
Defined.

(** C2. The test is component-wise: whatever [major] is, a capability tuple
    with [minor = 0] gets the insufficiency message and never the sufficiency
    message, also where the tuple is above [(2, 1)] in the lexicographic
    order, as [(3, 0)] is. *)
Theorem minor_zero_is_insufficient :
  forall bytes_decode L g h major,
    Globals.cuda g = true ->
    Library.select_device L 0 = Ok h ->
    Device.compute_capability h = Ok (major, 0) ->
    let t := events_of (cell7 bytes_decode L g) in
    stdout t = [insufficient_text] /\
    ~ printed 139 t /\
    (2 < major -> tuple_geb (major, 0) (2, 1) = true).
Proof.
  intros dec L g h major Hg Hsel Hcc t.
  assert (Hout : stdout t = [insufficient_text] /\ ~ printed 139 t).
  { subst t. destruct (Z_lt_le_dec major 2) as [Hlow|Hmajor].
    - rewrite (cell7_major_low dec L g Hg h Hsel major 0 Hcc Hlow).
      split; [reflexivity|]. intros F; in_log.
    - rewrite (cell7_minor_low dec L g Hg h Hsel major 0 Hcc Hmajor ltac:(lia)).
      split; [reflexivity|]. intros F; in_log. }
  destruct Hout as [Hout Hnot]. repeat split; auto.
  intros Hbig. unfold tuple_geb; cbn.
  destruct (Z.gtb_spec major 2); [reflexivity|lia].
Qed.

Lemma minor_zero_is_insufficient_witness :
  let t := events_of (cell7 decode_ascii (host [gtx680]) imported) in
  Device.compute_capability gtx680 = Ok (3, 0) /\
  stdout t = [insufficient_text] /\
  ~ printed 139 t /\
  (2 < 3 -> tuple_geb (3, 0) (2, 1) = true).
Proof.
  split; [reflexivity|].
  apply (minor_zero_is_insufficient decode_ascii (host [gtx680]) imported gtx680 3);
    reflexivity.
Defined.

(** Splitting on every answer a cell's run depends on. *)
Ltac split_run :=
  repeat (match goal with
          | |- context [match ?x with _ => _ end] =>
              lazymatch x with
              | context [match _ with _ => _ end] => fail
              | _ => destruct x eqn:?
              end
          end; cbn in *).

(** In every run, the compute-capability check prints at most one message,
    selects a device at most once and reads the capability at most twice. *)
Lemma cell7_bounds bytes_decode L g :
  let t := events_of (cell7 bytes_decode L g) in
  (length (stdout t) <= 1)%nat /\
  (count_calls (CudaSelectDevice 0) t <= 1)%nat /\
  (count_calls read_capability t <= 2)%nat.
Proof.
  unfold events_of. unfold_cell. split_run; repeat split; lia.
Qed.

(** C5, as stated, fails: a GeForce GT 710 and a Tesla K20 have the same
    capability (3, 5), so the comparison has the same result for both, and
    the check prints a different message for each. *)
Lemma sufficient_message_not_fixed :
  let out d := stdout (events_of (cell7 decode_ascii (host [d]) imported)) in
  (Device.compute_capability gt710 = Device.compute_capability k20 /\
   out gt710 = [sufficient_text "GeForce GT 710"] /\
   out k20 = [sufficient_text "Tesla K20"] /\
   out gt710 <> out k20) /\
  ~ two_fixed_messages decode_ascii.
Proof.
  split.
  - repeat split. vm_compute. discriminate.
  - intros [pass [fail H]].
    pose proof (H (host [gt710]) imported gt710 3 5 eq_refl eq_refl eq_refl eq_refl) as H1.
    pose proof (H (host [k20]) imported k20 3 5 eq_refl eq_refl eq_refl eq_refl) as H2.
    vm_compute in H1, H2. rewrite <- H1 in H2. discriminate H2.
Qed.

(** C5, amended. When the device is selected and its capability and name are
    read and decoded, the check prints exactly one message: the constant
    insufficiency message, or the sufficiency message, a constant template
    around the decoded name of the device; which of the two is decided by the
    threshold comparison alone. *)
Theorem one_message_chosen_by_comparison :
  forall bytes_decode L g h major minor b s,
    Globals.cuda g = true ->
    Library.select_device L 0 = Ok h ->
    Device.compute_capability h = Ok (major, minor) ->
    Device.name h = Ok b ->
    bytes_decode b = Ok s ->
    stdout (events_of (cell7 bytes_decode L g)) =
    [if (major >=? 2) && (minor >=? 1) then sufficient_text s else insufficient_text] /\
    result_of (cell7 bytes_decode L g) = Ok tt.
Proof.
  intros dec L g h major minor b s Hg Hsel Hcc Hname Hdec.
  destruct (Z.geb_spec major 2) as [Hmajor|Hlow].
  - destruct (Z.geb_spec minor 1) as [Hminor|Hlow].
    + rewrite (cell7_sufficient dec L g Hg h Hsel major minor Hcc b s Hmajor Hminor Hname Hdec).
      split; reflexivity.
    + rewrite (cell7_minor_low dec L g Hg h Hsel major minor Hcc Hmajor Hlow).
      split; reflexivity.
  - rewrite (cell7_major_low dec L g Hg h Hsel major minor Hcc Hlow).
    split; reflexivity.
Qed.

Lemma one_message_chosen_by_comparison_witness :
  Device.name k20 = Ok (list_byte_of_string "Tesla K20") /\
  stdout (events_of (cell7 decode_ascii (host [k20]) imported)) =
  [if (3 >=? 2) && (5 >=? 1) then sufficient_text "Tesla K20" else insufficient_text] /\
  result_of (cell7 decode_ascii (host [k20]) imported) = Ok tt.
Proof.
  split; [reflexivity|].
  apply (one_message_chosen_by_comparison decode_ascii (host [k20]) imported k20 3 5
           (list_byte_of_string "Tesla K20") "Tesla K20");
    reflexivity.
Defined.

(** C8, as stated, fails: for the GeForce GT 710, of capability (3, 5), the
    check reads [my_instance.compute_capability] twice, once for each operand
    of the [and] at line 138. *)
Lemma capability_read_twice :
  count_calls read_capability
    (events_of (cell7 decode_ascii (host [gt710]) imported)) = 2%nat /\
  count_calls read_capability
    (events_of (cell7 decode_ascii (host [gt710]) imported)) <> 1%nat.
Proof. split; [reflexivity | vm_compute; discriminate]. Qed.

(** C8, amended. The device is selected once. Its [compute_capability]
    attribute is read once when [major < 2], where the [and] stops at its
    first operand, and twice when [major >= 2]; each read is indexed and
    compared against a literal, [2] for component 0 and [1] for component 1. *)
Theorem capability_read_once_or_twice :
  forall bytes_decode L g h major minor,
    Globals.cuda g = true ->
    Library.select_device L 0 = Ok h ->
    Device.compute_capability h = Ok (major, minor) ->
    let t := events_of (cell7 bytes_decode L g) in
    count_calls (CudaSelectDevice 0) t = 1%nat /\
    count_calls read_capability t = (if major >=? 2 then 2 else 1)%nat /\
    (printed 139 t -> (major >=? 2) && (minor >=? 1) = true) /\
    (printed 141 t -> (major >=? 2) && (minor >=? 1) = false).
Proof.
  intros dec L g h major minor Hg Hsel Hcc t. subst t.
  unfold events_of, printed. unfold_cell.
  rewrite Hg; cbn. rewrite Hsel; cbn. rewrite Hcc; cbn.
  destruct (major >=? 2); cbn.
  - rewrite Hcc; cbn.
    destruct (minor >=? 1); cbn; split_run; repeat split; intros; in_log; reflexivity.
  - repeat split; intros; in_log; reflexivity.
Qed.

Lemma capability_read_once_or_twice_witness :
  let t := events_of (cell7 decode_ascii (host [gtx280]) imported) in
  Device.compute_capability gtx280 = Ok (1, 3) /\
  count_calls (CudaSelectDevice 0) t = 1%nat /\
  count_calls read_capability t = (if 1 >=? 2 then 2 else 1)%nat /\
  (printed 139 t -> (1 >=? 2) && (3 >=? 1) = true) /\
  (printed 141 t -> (1 >=? 2) && (3 >=? 1) = false).
Proof.
  split; [reflexivity|].
  apply (capability_read_once_or_twice decode_ascii (host [gtx280]) imported gtx280 1 3);
    reflexivity.
Defined.

(** ** Runs of the enumeration loop *)

Lemma stdout_app t1 t2 : stdout (t1 ++ t2) = (stdout t1 ++ stdout t2)%list.
Proof.
  induction t1 as [|[c r|line text] t1 IH]; cbn; [reflexivity|assumption|].
  now rewrite IH.
Qed.

Lemma printed_lines_app t1 t2 :
  printed_lines (t1 ++ t2) = (printed_lines t1 ++ printed_lines t2)%list.
Proof.
  induction t1 as [|[c r|line text] t1 IH]; cbn; [reflexivity|assumption|].
  now rewrite IH.
Qed.

Lemma count_calls_app c t1 t2 :
  count_calls c (t1 ++ t2) = (count_calls c t1 + count_calls c t2)%nat.
Proof.
  induction t1 as [|[c' r|l text] t1 IH]; cbn; [reflexivity| |assumption].
  destruct (call_eqb c' c); cbn; now rewrite IH.
Qed.

Section Loop.
Variable bytes_decode : list byte -> result string.
Variable L : Library.t.

Lemma report_device_readable g d i s :
  readable bytes_decode d i s ->
  exists t,
    report_device bytes_decode d g = (bind_device g d, t, Ok tt) /\
    stdout t = [device_text i s].
Proof.
  intros [Hid [b [Hname Hdec]]].
  unfold report_device. unfold_cell. rewrite Hid; cbn. rewrite Hname; cbn.
  rewrite Hdec; cbn. eexists; split; reflexivity.
Qed.

Lemma report_device_events g d :
  forallb is_loop_event (events_of (report_device bytes_decode d g)) = true.
Proof.
  unfold events_of, report_device. unfold_cell. split_run; reflexivity.
Qed.

Lemma for_each_cons {A : Type} (x : A) (xs : list A) (body : A -> M unit) g :
  for_each (x :: xs) body g =
  match body x g with
  | (g1, t1, Ok _) =>
      match for_each xs body g1 with
      | (g2, t2, r) => (g2, (t1 ++ t2)%list, r)
      end
  | (g1, t1, Raise e) => (g1, t1, Raise e)
  end.
Proof. reflexivity. Qed.

(** Every event of the loop is an event of its body. *)
Lemma loop_events ds :
  forall g,
    forallb is_loop_event
      (events_of (for_each ds (report_device bytes_decode) g)) = true.
Proof.
  induction ds as [|d ds IH]; intros g; [reflexivity|].
  rewrite for_each_cons.
  pose proof (report_device_events g d) as Hd.
  destruct (report_device bytes_decode d g) as [[g1 t1] [[]|e]]; cbn in Hd.
  - specialize (IH g1).
    destruct (for_each ds (report_device bytes_decode) g1) as [[g2 t2] r].
    unfold events_of in *; cbn in *. rewrite forallb_app, Hd, IH. reflexivity.
  - exact Hd.
Qed.

(** When every device is readable the loop prints one line per device, in
    the order of the list, and completes. *)
Lemma loop_readable ds :
  forall infos g,
    Forall2 (fun d p => readable bytes_decode d (fst p) (snd p)) ds infos ->
    stdout (events_of (for_each ds (report_device bytes_decode) g)) =
      map (fun p => device_text (fst p) (snd p)) infos /\
    result_of (for_each ds (report_device bytes_decode) g) = Ok tt.
Proof.
  induction ds as [|d ds IH]; intros infos g Hall; inversion Hall as [|? [i s] ? ? Hd Hrest]; subst.
  - split; reflexivity.
  - rewrite for_each_cons.
    destruct (report_device_readable g d i s Hd) as [t [Hrun Hout]].
    rewrite Hrun.
    destruct (IH _ (bind_device g d) Hrest) as [IHout IHres].
    destruct (for_each ds (report_device bytes_decode) (bind_device g d)) as [[g2 t2] r].
    unfold events_of, result_of in *; cbn in *.
    rewrite stdout_app, Hout, IHout. split; [reflexivity|assumption].
Qed.

End Loop.

(** ** Runs of the availability check *)

Lemma loop_event_in ev t :
  forallb is_loop_event t = true -> In ev t -> is_loop_event ev = true.
Proof. intros Hall Hin. rewrite forallb_forall in Hall. auto. Qed.

Section Cell5.
Variable bytes_decode : list byte -> result string.
Variable L : Library.t.
Variable g : Globals.t.

Lemma cell5_unavailable node :
  Library.import_module L "platform" = Ok tt ->
  Library.import_module L "numba.cuda" = Ok tt ->
  Library.platform_node L = Ok node ->
  Library.is_available L = Ok false ->
  cell5 bytes_decode L g =
  (bind_modules g,
   (banner node ++ [Lib CudaIsAvailable (Ok (VBool false)); Out 109 no_device_text])%list,
   Ok tt).
Proof.
  intros H1 H2 H3 H4. unfold_cell.
  rewrite H1; cbn. rewrite H2; cbn. rewrite H3; cbn. rewrite H4; cbn.
  reflexivity.
Qed.

Lemma cell5_enumeration_raises node e :
  Library.import_module L "platform" = Ok tt ->
  Library.import_module L "numba.cuda" = Ok tt ->
  Library.platform_node L = Ok node ->
  Library.is_available L = Ok true ->
  Library.list_devices L = Raise e ->
  cell5 bytes_decode L g =
  (bind_modules g,
   (banner node ++ [Lib CudaIsAvailable (Ok (VBool true));
                    Lib CudaListDevices (Raise e)])%list,
   Raise e).
Proof.
  intros H1 H2 H3 H4 H5. unfold_cell.
  rewrite H1; cbn. rewrite H2; cbn. rewrite H3; cbn. rewrite H4; cbn.
  rewrite H5; cbn. reflexivity.
Qed.

Lemma cell5_available node ds :
  Library.import_module L "platform" = Ok tt ->
  Library.import_module L "numba.cuda" = Ok tt ->
  Library.platform_node L = Ok node ->
  Library.is_available L = Ok true ->
  Library.list_devices L = Ok ds ->
  cell5 bytes_decode L g =
  match for_each ds (report_device bytes_decode) (bind_modules g) with
  | (g', t, r) =>
      (g',
       (banner node ++ [Lib CudaIsAvailable (Ok (VBool true));
                        Lib CudaListDevices (Ok (VDevices (length ds)))] ++ t)%list,
       r)
  end.
Proof.
  intros H1 H2 H3 H4 H5. unfold_cell.
  rewrite H1; cbn. rewrite H2; cbn. rewrite H3; cbn. rewrite H4; cbn.
  rewrite H5; cbn.
  destruct (for_each ds (report_device bytes_decode) _) as [[g' t] r].
  reflexivity.
Qed.

(** The detection call is reached, and answers [b], only in a run whose
    imports and [platform.node()] succeeded. *)
Lemma cell5_reported b :
  reported b (events_of (cell5 bytes_decode L g)) ->
  exists node,
    Library.import_module L "platform" = Ok tt /\
    Library.import_module L "numba.cuda" = Ok tt /\
    Library.platform_node L = Ok node /\
    Library.is_available L = Ok b.
Proof.
  unfold reported, events_of. unfold_cell.
  destruct (Library.import_module L "platform") as [[]|e1]; cbn;
    [|intros H; in_log].
  destruct (Library.import_module L "numba.cuda") as [[]|e2]; cbn;
    [|intros H; in_log].
  destruct (Library.platform_node L) as [node|e3]; cbn; [|intros H; in_log].
  destruct (Library.is_available L) as [[|]|e4]; cbn; [| |intros H; in_log].
  - destruct (Library.list_devices L) as [ds|e5]; cbn.
    + pose proof (loop_events bytes_decode ds (bind_modules g)) as Hloop.
      unfold bind_modules, events_of in Hloop.
      destruct (for_each ds (report_device bytes_decode) _) as [[g' t] r].
      cbn in *. intros H; in_log; eauto 6.
      apply (loop_event_in _ _ Hloop) in H. discriminate H.
    + intros H; in_log; eauto 6.
  - intros H; in_log; eauto 6.
Qed.

End Cell5.

Lemma loop_stdout_at t :
  forallb is_loop_event t = true -> stdout_at 106 t = stdout t.
Proof.
  induction t as [|[c r|line text] t IH]; cbn; intros H.
  - reflexivity.
  - apply andb_prop in H. tauto.
  - apply andb_prop in H. destruct H as [Hline Hrest].
    rewrite Hline, IH by assumption. reflexivity.
Qed.

Lemma loop_not_printed line t :
  forallb is_loop_event t = true -> line <> 106%nat -> ~ printed line t.
Proof.
  intros Hloop Hline [text Hin].
  apply (loop_event_in _ _ Hloop) in Hin. cbn in Hin.
  apply Nat.eqb_eq in Hin. contradiction.
Qed.

(** C3. In the availability check, once [cuda.is_available()] has answered
    [b]: the enumeration call is made, and the device lines (line 106) are
    printed, only if [b] is true, and then the no-device message is not
    printed and the device lines are those of the devices enumerated; if [b]
    is false the only output after the banner is the constant no-device
    message (line 109), printed once, and no device is enumerated or read. *)
Theorem enumeration_iff_available :
  forall bytes_decode L g b,
    let t := events_of (cell5 bytes_decode L g) in
    reported b t ->
    (called CudaListDevices t <-> b = true) /\
    (printed 106 t -> b = true) /\
    (printed 109 t <-> b = false) /\
    (b = true ->
     forall ds infos,
       Library.list_devices L = Ok ds ->
       Forall2 (fun d p => readable bytes_decode d (fst p) (snd p)) ds infos ->
       stdout_at 106 t = map (fun p => device_text (fst p) (snd p)) infos) /\
    (b = false ->
     stdout_at 109 t = [no_device_text] /\
     (forall attr, ~ called (GetAttr "device" attr) t) /\
     result_of (cell5 bytes_decode L g) = Ok tt /\
     exists node, stdout t = (banner_text node ++ [no_device_text])%list).
Proof.
  intros dec L g b t Hrep. subst t.
  destruct (cell5_reported dec L g b Hrep) as [node [H1 [H2 [H3 H4]]]].
  clear Hrep. destruct b.
  - destruct (Library.list_devices L) as [ds|e] eqn:Hlist.
    + rewrite (cell5_available dec L g node ds H1 H2 H3 H4 Hlist).
      pose proof (loop_events dec ds (bind_modules g)) as Hloop.
      pose proof (loop_readable dec ds) as Hread.
      specialize (fun infos => Hread infos (bind_modules g)).
      destruct (for_each ds (report_device dec) (bind_modules g)) as [[g' t] r].
      unfold events_of, result_of in *; cbn in *.
      repeat split; intros; try discriminate; try reflexivity.
      * exists (Ok (VDevices (length ds))). cbn. tauto.
      * exfalso. in_log.
        match goal with
        | Hin : In (Out 109 ?text) t |- _ =>
            apply (loop_not_printed 109 t Hloop); [lia | exists text; exact Hin]
        end.
      * match goal with
        | Hds : Ok ds = Ok ?ds', Hall : Forall2 _ ?ds' _ |- _ =>
            inversion Hds; subst ds'; destruct (Hread _ Hall) as [Hout _]
        end.
        rewrite (loop_stdout_at t Hloop). exact Hout.
    + rewrite (cell5_enumeration_raises dec L g node e H1 H2 H3 H4 Hlist).
      unfold events_of, result_of; cbn.
      repeat split; intros; try discriminate; try reflexivity.
      * exists (Raise e). cbn. tauto.
      * exfalso. in_log.
  - rewrite (cell5_unavailable dec L g node H1 H2 H3 H4).
    unfold events_of, result_of; cbn.
    repeat split; intros; try discriminate; try reflexivity; in_log.
    + exists no_device_text. tauto.
    + intros F; in_log.
    + exists node. reflexivity.
Qed.

Lemma enumeration_iff_available_witness :
  let t := events_of (cell5 decode_ascii (host [gt710]) Globals.fresh) in
  reported true t /\
  (called CudaListDevices t <-> true = true) /\
  (printed 106 t -> true = true) /\
  (printed 109 t <-> true = false) /\
  (true = true ->
   forall ds infos,
     Library.list_devices (host [gt710]) = Ok ds ->
     Forall2 (fun d p => readable decode_ascii d (fst p) (snd p)) ds infos ->
     stdout_at 106 t = map (fun p => device_text (fst p) (snd p)) infos) /\
  (true = false ->
   stdout_at 109 t = [no_device_text] /\
   (forall attr, ~ called (GetAttr "device" attr) t) /\
   result_of (cell5 decode_ascii (host [gt710]) Globals.fresh) = Ok tt /\
   exists node, stdout t = (banner_text node ++ [no_device_text])%list).
Proof.
  assert (Hrep : reported true
                   (events_of (cell5 decode_ascii (host [gt710]) Globals.fresh))).
  { unfold reported. vm_compute. tauto. }
  split; [exact Hrep|].
  exact (enumeration_iff_available decode_ascii (host [gt710]) Globals.fresh true Hrep).
Defined.

(** C4. When the detection call answers true and the enumeration call returns
    the devices [ds], each with a readable identifier and a name that
    decodes, the check prints after the banner exactly one line per device,
    in the order of [ds], made of that device's identifier and decoded name. *)
Theorem one_line_per_device :
  forall bytes_decode L g ds infos,
    let t := events_of (cell5 bytes_decode L g) in
    reported true t ->
    Library.list_devices L = Ok ds ->
    Forall2 (fun d p => readable bytes_decode d (fst p) (snd p)) ds infos ->
    stdout_at 106 t = map (fun p => device_text (fst p) (snd p)) infos /\
    length (stdout_at 106 t) = length ds /\
    (exists node,
       stdout t =
       (banner_text node ++ map (fun p => device_text (fst p) (snd p)) infos)%list) /\
    result_of (cell5 bytes_decode L g) = Ok tt.
Proof.
  intros dec L g ds infos t Hrep Hlist Hall. subst t.
  destruct (cell5_reported dec L g true Hrep) as [node [H1 [H2 [H3 H4]]]].
  clear Hrep.
  rewrite (cell5_available dec L g node ds H1 H2 H3 H4 Hlist).
  pose proof (loop_events dec ds (bind_modules g)) as Hloop.
  destruct (loop_readable dec ds infos (bind_modules g) Hall) as [Hout Hres].
  destruct (for_each ds (report_device dec) (bind_modules g)) as [[g' t] r].
  unfold events_of, result_of in *; cbn in *.
  rewrite (loop_stdout_at t Hloop), Hout.
  repeat split.
  - rewrite length_map. symmetry. exact (Forall2_length Hall).
  - exists node. reflexivity.
  - exact Hres.
Qed.

Lemma one_line_per_device_witness :
  let t := events_of (cell5 decode_ascii (host [gtx680; k20]) Globals.fresh) in
  reported true t /\
  Forall2 (fun d p => readable decode_ascii d (fst p) (snd p))
    [gtx680; k20] [(0, "GeForce GTX 680"); (1, "Tesla K20")] /\
  stdout_at 106 t =
    map (fun p => device_text (fst p) (snd p)) [(0, "GeForce GTX 680"); (1, "Tesla K20")] /\
  length (stdout_at 106 t) = length [gtx680; k20] /\
  (exists node,
     stdout t =
     (banner_text node ++
      map (fun p => device_text (fst p) (snd p))
        [(0, "GeForce GTX 680"); (1, "Tesla K20")])%list) /\
  result_of (cell5 decode_ascii (host [gtx680; k20]) Globals.fresh) = Ok tt.
Proof.
  assert (Hrep : reported true
                   (events_of (cell5 decode_ascii (host [gtx680; k20]) Globals.fresh))).
  { unfold reported. vm_compute. tauto. }
  assert (Hall : Forall2 (fun d p => readable decode_ascii d (fst p) (snd p))
                   [gtx680; k20] [(0, "GeForce GTX 680"); (1, "Tesla K20")]).
  { repeat constructor; cbn; eexists; split; reflexivity. }
  split; [exact Hrep|]. split; [exact Hall|].
  exact (one_line_per_device decode_ascii (host [gtx680; k20]) Globals.fresh
           [gtx680; k20] [(0, "GeForce GTX 680"); (1, "Tesla K20")] Hrep eq_refl Hall).
Defined.

(** ** Exceptions are not caught *)

Lemma clean_app t1 t2 : clean t1 -> clean t2 -> clean (t1 ++ t2).
Proof. unfold clean. intros H1 H2. rewrite forallb_app, H1, H2. reflexivity. Qed.

Lemma clean_not_raising pre c e post : ~ clean (pre ++ Lib c (Raise e) :: post).
Proof.
  unfold clean. rewrite forallb_app. cbn. rewrite andb_false_r. discriminate.
Qed.

(** In a log that ends with its only raising call, a raising call is last. *)
Lemma raising_call_is_last pre' ev pre c e post :
  clean pre' ->
  (pre' ++ [ev])%list = (pre ++ Lib c (Raise e) :: post)%list ->
  post = [] /\ ev = Lib c (Raise e).
Proof.
  intros Hclean Heq.
  destruct post as [|x post].
  - apply app_inj_tail in Heq. destruct Heq as [_ Heq]. auto.
  - exfalso.
    assert (Hne : x :: post <> []) by discriminate.
    destruct (exists_last Hne) as [post' [last Hlast]].
    rewrite Hlast in Heq.
    change (pre ++ Lib c (Raise e) :: post' ++ [last])%list
      with (pre ++ (Lib c (Raise e) :: post') ++ [last])%list in Heq.
    rewrite app_assoc in Heq.
    apply app_inj_tail in Heq. destruct Heq as [Heq _]. subst pre'.
    exact (clean_not_raising _ _ _ _ Hclean).
Qed.

Lemma uncaught_raising {A : Type} (t : list event) (r : result A) pre c e post :
  uncaught t r ->
  t = (pre ++ Lib c (Raise e) :: post)%list ->
  post = [] /\ r = Raise e.
Proof.
  intros Hun Heq. destruct r as [a|e']; cbn in Hun.
  - subst t. destruct (clean_not_raising _ _ _ _ Hun).
  - destruct Hun as [[pre' [c' [Ht Hclean]]]|[_ Hclean]].
    + rewrite Ht in Heq.
      destruct (raising_call_is_last _ _ _ _ _ _ Hclean Heq) as [Hpost Hev].
      inversion Hev; subst. auto.
    + subst t. destruct (clean_not_raising _ _ _ _ Hclean).
Qed.

Lemma propagates_ret {A : Type} (a : A) : propagates (ret a).
Proof. intros g. reflexivity. Qed.

Lemma propagates_bind {A B : Type} (m : M A) (k : A -> M B) :
  propagates m -> (forall a, propagates (k a)) -> propagates (bind m k).
Proof.
  intros Hm Hk g. specialize (Hm g). cbn. unfold M_bind.
  destruct (m g) as [[g1 t1] [a|e]]; unfold events_of, result_of in *; cbn in *.
  - specialize (Hk a g1).
    destruct (k a g1) as [[g2 t2] [b|e]]; unfold events_of, result_of in *; cbn in *.
    + apply clean_app; assumption.
    + destruct Hk as [[pre [c [Ht Hclean]]]|[Hname Hclean]].
      * left. exists (t1 ++ pre)%list, c. rewrite Ht, app_assoc.
        split; [reflexivity|]. apply clean_app; assumption.
      * right. split; [assumption|]. apply clean_app; assumption.
  - exact Hm.
Qed.

Lemma propagates_lib_call {A : Type} c (inj : A -> value) (r : result A) :
  propagates (lib_call c inj r).
Proof.
  intros g. destruct r as [a|e]; cbn; [reflexivity|].
  left. exists [], c. split; reflexivity.
Qed.

Lemma propagates_print line args : propagates (print line args).
Proof. intros g. reflexivity. Qed.

Lemma propagates_assign f : propagates (assign f).
Proof. intros g. reflexivity. Qed.

Lemma propagates_load_module name bound : propagates (load_module name bound).
Proof.
  intros g. unfold load_module, events_of, result_of; cbn.
  destruct (bound g); cbn; [reflexivity|].
  right. split; [eauto|reflexivity].
Qed.

Lemma propagates_load_object name var : propagates (load_object name var).
Proof.
  intros g. unfold load_object, events_of, result_of; cbn.
  destruct (var g); cbn; [reflexivity|].
  right. split; [eauto|reflexivity].
Qed.

Lemma propagates_for_each {A : Type} (xs : list A) (body : A -> M unit) :
  (forall x, propagates (body x)) -> propagates (for_each xs body).
Proof.
  intros Hbody. induction xs as [|x xs IH]; cbn [for_each].
  - apply propagates_ret.
  - apply propagates_bind; [apply Hbody | intros _; exact IH].
Qed.

Lemma propagates_and (a b : M bool) :
  propagates a -> propagates b -> propagates (and_ a b).
Proof.
  intros Ha Hb. unfold and_. apply propagates_bind; [assumption|].
  intros [|]; [assumption | apply propagates_ret].
Qed.

(** Propagation through a program, one construct at a time. *)
Ltac propagate :=
  repeat first
    [ apply propagates_and
    | apply propagates_for_each
    | apply propagates_bind
    | apply propagates_ret
    | apply propagates_lib_call
    | apply propagates_print
    | apply propagates_assign
    | apply propagates_load_module
    | apply propagates_load_object
    | match goal with
      | |- propagates (if ?b then _ else _) => destruct b
      | |- forall _, _ => intro
      end ].

Lemma propagates_cell5 bytes_decode L : propagates (cell5 bytes_decode L).
Proof.
  unfold cell5, report_device, import_platform, from_numba_import_cuda,
    platform_node, cuda_is_available, cuda_list_devices, assign_device,
    device_id, device_name, decode.
  propagate.
Qed.

Lemma propagates_cell7 bytes_decode L : propagates (cell7 bytes_decode L).
Proof.
  unfold cell7, cuda_select_device, assign_my_instance,
    my_instance_compute_capability, my_instance_name, decode.
  propagate.
Qed.

(** C7. Neither cell catches an exception: when a library call of a cell
    raises [e] (an import, [platform.node], [cuda.is_available],
    [cuda.list_devices], [cuda.select_device], an attribute of a device, or
    [decode]), that call is the last event of the cell, so nothing is printed
    or called after it, and the cell ends in [e] itself. *)
Theorem exceptions_propagate :
  forall bytes_decode L g (cell : M unit) pre c e post,
    In cell [cell5 bytes_decode L; cell7 bytes_decode L] ->
    events_of (cell g) = (pre ++ Lib c (Raise e) :: post)%list ->
    post = [] /\
    result_of (cell g) = Raise e /\
    stdout (events_of (cell g)) = stdout pre.
Proof.
  intros dec L g cell pre c e post Hcell Hlog.
  assert (Hprop : propagates cell).
  { destruct Hcell as [<-|[<-|[]]];
      [apply propagates_cell5 | apply propagates_cell7]. }
  destruct (uncaught_raising _ _ pre c e post (Hprop g) Hlog) as [Hpost Hres].
  repeat split; try assumption.
  rewrite Hlog, Hpost, stdout_app. cbn. apply app_nil_r.
Qed.

Lemma exceptions_propagate_witness :
  let cell := cell5 decode_ascii (host [gt710; garbled]) in
  let t := events_of (cell Globals.fresh) in
  let e := PyErr "UnicodeDecodeError" "invalid start byte" in
  In cell [cell5 decode_ascii (host [gt710; garbled]);
           cell7 decode_ascii (host [gt710; garbled])] /\
  t = (removelast t ++ Lib (Decode [Byte.xff; Byte.xfe]) (Raise e) :: [])%list /\
  [] = @nil event /\
  result_of (cell Globals.fresh) = Raise e /\
  stdout t = stdout (removelast t) /\
  stdout t = (banner_text "ridcully" ++ [device_text 0 "GeForce GT 710"])%list.
Proof.
  split; [left; reflexivity|]. split; [reflexivity|].
  pose proof (exceptions_propagate decode_ascii (host [gt710; garbled]) Globals.fresh
                (cell5 decode_ascii (host [gt710; garbled]))
                (removelast
                   (events_of (cell5 decode_ascii (host [gt710; garbled]) Globals.fresh)))
                (Decode [Byte.xff; Byte.xfe])
                (PyErr "UnicodeDecodeError" "invalid start byte") []
                (or_introl eq_refl) eq_refl) as [H1 [H2 H3]].
  split; [exact H1|]. split; [exact H2|]. split; [exact H3|]. reflexivity.
Defined.

(** ** The two cells in sequence *)

Lemma run_notebook_unfold bytes_decode L :
  run_notebook bytes_decode L =
  match cell5 bytes_decode L Globals.fresh with
  | (g5, t5, Ok _) =>
      {| index := 5; log := t5; status := Ok tt |} ::
      match cell7 bytes_decode L g5 with
      | (_, t7, Ok _) => [{| index := 7; log := t7; status := Ok tt |}]
      | (_, t7, Raise e) => [{| index := 7; log := t7; status := Raise e |}]
      end
  | (_, t5, Raise e) => [{| index := 5; log := t5; status := Raise e |}]
  end.
Proof.
  unfold run_notebook, notebook. cbn [run_cells].
  destruct (cell5 bytes_decode L Globals.fresh) as [[g5 t5] [[]|e]]; [|reflexivity].
  destruct (cell7 bytes_decode L g5) as [[g7 t7] [[]|e]]; reflexivity.
Qed.

(** The loop rebinds [device] only. *)
Lemma loop_keeps_globals bytes_decode ds :
  forall g,
    let g' := globals_of (for_each ds (report_device bytes_decode) g) in
    Globals.platform g' = Globals.platform g /\
    Globals.cuda g' = Globals.cuda g /\
    Globals.my_instance g' = Globals.my_instance g.
Proof.
  induction ds as [|d ds IH]; intros g; [cbn; auto|].
  cbn zeta. rewrite for_each_cons.
  assert (Hbody : let g1 := globals_of (report_device bytes_decode d g) in
                  Globals.platform g1 = Globals.platform g /\
                  Globals.cuda g1 = Globals.cuda g /\
                  Globals.my_instance g1 = Globals.my_instance g).
  { unfold globals_of, report_device. unfold_cell. split_run; auto. }
  destruct (report_device bytes_decode d g) as [[g1 t1] [[]|e]];
    unfold globals_of in *; cbn in Hbody; [|exact Hbody].
  specialize (IH g1). cbn zeta in IH.
  destruct (for_each ds (report_device bytes_decode) g1) as [[g2 t2] r].
  cbn in *. intuition congruence.
Qed.

(** A completed availability check leaves [cuda] bound. *)
Lemma cell5_binds_cuda bytes_decode L g :
  result_of (cell5 bytes_decode L g) = Ok tt ->
  Globals.cuda (globals_of (cell5 bytes_decode L g)) = true.
Proof.
  unfold result_of, globals_of. unfold_cell.
  destruct (Library.import_module L "platform") as [[]|e1]; cbn; [|discriminate].
  destruct (Library.import_module L "numba.cuda") as [[]|e2]; cbn; [|discriminate].
  destruct (Library.platform_node L) as [node|e3]; cbn; [|discriminate].
  destruct (Library.is_available L) as [[|]|e4]; cbn; [| |discriminate].
  - destruct (Library.list_devices L) as [ds|e5]; cbn; [|discriminate].
    pose proof (loop_keeps_globals bytes_decode ds (bind_modules g)) as Hkeep.
    unfold bind_modules, globals_of in Hkeep. cbn zeta in Hkeep.
    destruct (for_each ds (report_device bytes_decode) _) as [[g' t] r].
    cbn in *. intros _. tauto.
  - reflexivity.
Qed.

Lemma cell7_starts_with_select bytes_decode L g :
  Globals.cuda g = true ->
  exists rest,
    events_of (cell7 bytes_decode L g) =
    Lib (CudaSelectDevice 0)
        (map_result (fun _ => VDevice) (Library.select_device L 0)) :: rest.
Proof.
  intros Hg. unfold events_of. unfold_cell. rewrite Hg; cbn.
  split_run; eexists; reflexivity.
Qed.

(** C6. The compute-capability check does not look at the answer of the
    availability check: whatever [cuda.is_available()] answered, once cell 5
    has completed cell 7 runs and begins by calling [cuda.select_device(0)];
    if that call raises [e], as on a host without a device, cell 7 prints
    neither message and ends in [e]. *)
Theorem select_device_unguarded :
  forall bytes_decode L b,
    reported b (events_of (cell5 bytes_decode L Globals.fresh)) ->
    result_of (cell5 bytes_decode L Globals.fresh) = Ok tt ->
    exists t5 t7 s7,
      run_notebook bytes_decode L =
      [ {| index := 5; log := t5; status := Ok tt |};
        {| index := 7; log := t7; status := s7 |} ] /\
      reported b t5 /\
      (b = false -> In (Out 109 no_device_text) t5) /\
      (exists rest,
         t7 = Lib (CudaSelectDevice 0)
                (map_result (fun _ => VDevice) (Library.select_device L 0)) :: rest) /\
      (forall e,
         Library.select_device L 0 = Raise e ->
         t7 = [Lib (CudaSelectDevice 0) (Raise e)] /\
         s7 = Raise e /\
         stdout t7 = [] /\
         ~ printed 139 t7 /\ ~ printed 141 t7).
Proof.
  intros dec L b Hrep Hdone.
  pose proof (cell5_binds_cuda dec L Globals.fresh Hdone) as Hcuda.
  assert (Hno : b = false ->
                In (Out 109 no_device_text) (events_of (cell5 dec L Globals.fresh))).
  { intros ->.
    destruct (cell5_reported dec L _ false Hrep) as [node [H1 [H2 [H3 H4]]]].
    rewrite (cell5_unavailable dec L _ node H1 H2 H3 H4).
    unfold events_of; cbn. tauto. }
  rewrite run_notebook_unfold.
  destruct (cell5 dec L Globals.fresh) as [[g5 t5] [[]|e5]];
    unfold events_of, result_of, globals_of in *; cbn in *; [|discriminate].
  destruct (cell7_starts_with_select dec L g5 Hcuda) as [rest Hrest].
  pose proof (cell7_select_raises dec L g5 Hcuda) as Hraise.
  destruct (cell7 dec L g5) as [[g7 t7] [[]|e7]];
    unfold events_of in *; cbn in *.
  - exists t5, t7, (Ok tt).
    split; [reflexivity|]. split; [assumption|]. split; [assumption|].
    split; [eauto|].
    intros e Hsel. specialize (Hraise e Hsel). inversion Hraise.
  - exists t5, t7, (Raise e7).
    split; [reflexivity|]. split; [assumption|]. split; [assumption|].
    split; [eauto|].
    intros e Hsel. specialize (Hraise e Hsel). inversion Hraise; subst.
    repeat split; try reflexivity; intros F; in_log.
Qed.

Lemma select_device_unguarded_witness :
  reported false (events_of (cell5 decode_ascii ridcully Globals.fresh)) /\
  exists t5 t7 s7,
    run_notebook decode_ascii ridcully =
    [ {| index := 5; log := t5; status := Ok tt |};
      {| index := 7; log := t7; status := s7 |} ] /\
    reported false t5 /\
    (false = false -> In (Out 109 no_device_text) t5) /\
    (exists rest,
       t7 = Lib (CudaSelectDevice 0)
              (map_result (fun _ => VDevice) (Library.select_device ridcully 0)) :: rest) /\
    (forall e,
       Library.select_device ridcully 0 = Raise e ->
       t7 = [Lib (CudaSelectDevice 0) (Raise e)] /\
       s7 = Raise e /\
       stdout t7 = [] /\
       ~ printed 139 t7 /\ ~ printed 141 t7).
Proof.
  assert (Hrep : reported false (events_of (cell5 decode_ascii ridcully Globals.fresh))).
  { unfold reported. vm_compute. tauto. }
  split; [exact Hrep|].
  exact (select_device_unguarded decode_ascii ridcully false Hrep eq_refl).
Defined.

(** ** What the compute-capability check depends on *)

(** The compute-capability check behaves alike on any two kernels where
    [cuda] is bound and under any two libraries that answer its calls alike:
    the other globals, [device] among them, and the other answers of the
    libraries play no part. *)
Lemma cell7_same_run bytes_decode L1 L2 g1 g2 :
  Globals.cuda g1 = true ->
  Globals.cuda g2 = true ->
  same_answers (Library.select_device L1 0) (Library.select_device L2 0) ->
  events_of (cell7 bytes_decode L1 g1) = events_of (cell7 bytes_decode L2 g2) /\
  result_of (cell7 bytes_decode L1 g1) = result_of (cell7 bytes_decode L2 g2).
Proof.
  intros Hg1 Hg2 Hsame. unfold events_of, result_of. unfold_cell.
  rewrite Hg1, Hg2; cbn.
  destruct (Library.select_device L1 0) as [h1|e1];
    destruct (Library.select_device L2 0) as [h2|e2];
    cbn in Hsame |- *; try contradiction.
  - destruct Hsame as [Hcc Hname].
    destruct h1 as [id1 name1 cc1]; destruct h2 as [id2 name2 cc2].
    cbn in Hcc, Hname. subst cc2 name2. cbn. split_run; auto.
  - subst e2. auto.
Qed.

(** C9. Nothing flows from the availability check to the compute-capability
    check: take two executions of the notebook, under any two libraries, in
    which the availability check completes and the libraries give the same
    answers to the capability check's own calls ([select_device(0)] and the
    reads of [compute_capability] and [name]).  Then the capability check
    has the same log, so the same output, and the same end in both,
    whatever the detection and enumeration calls returned and whatever
    devices the loop went through. *)
Theorem capability_check_independent_of_availability :
  forall bytes_decode L1 L2,
    result_of (cell5 bytes_decode L1 Globals.fresh) = Ok tt ->
    result_of (cell5 bytes_decode L2 Globals.fresh) = Ok tt ->
    same_answers (Library.select_device L1 0) (Library.select_device L2 0) ->
    let runs1 := run_notebook bytes_decode L1 in
    let runs2 := run_notebook bytes_decode L2 in
    filter (fun r => Nat.eqb (index r) 7) runs1 =
      filter (fun r => Nat.eqb (index r) 7) runs2 /\
    log_of_cell 7 runs1 = log_of_cell 7 runs2 /\
    stdout (log_of_cell 7 runs1) = stdout (log_of_cell 7 runs2) /\
    log_of_cell 7 runs1 =
      events_of (cell7 bytes_decode L1
                   (globals_of (cell5 bytes_decode L1 Globals.fresh))).
Proof.
  intros dec L1 L2 Hdone1 Hdone2 Hsame runs1 runs2. subst runs1 runs2.
  pose proof (cell5_binds_cuda dec L1 Globals.fresh Hdone1) as Hc1.
  pose proof (cell5_binds_cuda dec L2 Globals.fresh Hdone2) as Hc2.
  rewrite !run_notebook_unfold.
  destruct (cell5 dec L1 Globals.fresh) as [[g1 t51] [[]|e1]];
    destruct (cell5 dec L2 Globals.fresh) as [[g2 t52] [[]|e2]];
    unfold result_of, globals_of in *; cbn in Hdone1, Hdone2, Hc1, Hc2 |- *;
    try discriminate.
  destruct (cell7_same_run dec L1 L2 g1 g2 Hc1 Hc2 Hsame) as [Hlog Hres].
  destruct (cell7 dec L1 g1) as [[g71 t71] [[]|e71]];
    destruct (cell7 dec L2 g2) as [[g72 t72] [[]|e72]];
    unfold log_of_cell, events_of, result_of in *; cbn in *;
    try discriminate; rewrite ?app_nil_r; subst;
    try (inversion Hres; subst); auto.
Qed.

Lemma capability_check_independent_of_availability_witness :
  let runs1 := run_notebook decode_ascii (host [gt710; k20]) in
  let runs2 := run_notebook decode_ascii undetected in
  log_of_cell 5 runs1 <> log_of_cell 5 runs2 /\
  same_answers (Library.select_device (host [gt710; k20]) 0)
               (Library.select_device undetected 0) /\
  filter (fun r => Nat.eqb (index r) 7) runs1 =
    filter (fun r => Nat.eqb (index r) 7) runs2 /\
  log_of_cell 7 runs1 = log_of_cell 7 runs2 /\
  stdout (log_of_cell 7 runs1) = stdout (log_of_cell 7 runs2) /\
  log_of_cell 7 runs1 =
    events_of (cell7 decode_ascii (host [gt710; k20])
                 (globals_of (cell5 decode_ascii (host [gt710; k20]) Globals.fresh))).
Proof.
  assert (Hsame : same_answers (Library.select_device (host [gt710; k20]) 0)
                               (Library.select_device undetected 0)).
  { split; reflexivity. }
  split; [vm_compute; discriminate|]. split; [exact Hsame|].
  exact (capability_check_independent_of_availability decode_ascii
           (host [gt710; k20]) undetected eq_refl eq_refl Hsame).
Defined.

(** ** Program-text order of the output *)

Lemma within_app lo mid hi t1 t2 :
  (lo <= mid <= hi)%nat ->
  within lo mid t1 -> within mid hi t2 -> within lo hi (t1 ++ t2).
Proof.
  intros Hmid [Hs1 Hb1] [Hs2 Hb2]. unfold within. rewrite printed_lines_app.
  split.
  - induction (printed_lines t1) as [|x xs IH]; cbn; [assumption|].
    inversion Hs1 as [|? ? Hxs Hx]; inversion Hb1 as [|? ? Hbx Hbxs]; subst.
    constructor; [auto|].
    apply Forall_app; split; [assumption|].
    eapply Forall_impl; [|exact Hb2]. cbn. intros; lia.
  - apply Forall_app; split.
    + eapply Forall_impl; [|exact Hb1]. cbn. intros; lia.
    + eapply Forall_impl; [|exact Hb2]. cbn. intros; lia.
Qed.

Lemma within_nil lo hi t : printed_lines t = [] -> within lo hi t.
Proof. intros H. unfold within. rewrite H. split; constructor. Qed.

Lemma within_weaken lo hi lo' hi' t :
  (lo' <= lo)%nat -> (hi <= hi')%nat -> within lo hi t -> within lo' hi' t.
Proof.
  intros Hlo Hhi [Hs Hb]. split; [assumption|].
  eapply Forall_impl; [|exact Hb]. cbn. intros; lia.
Qed.

Lemma silent_ret {A : Type} (a : A) : silent (ret a).
Proof. intros g. reflexivity. Qed.

Lemma silent_lib_call {A : Type} c (inj : A -> value) (r : result A) :
  silent (lib_call c inj r).
Proof. intros g. reflexivity. Qed.

Lemma silent_assign f : silent (assign f).
Proof. intros g. reflexivity. Qed.

Lemma silent_load_module name bound : silent (load_module name bound).
Proof. intros g. reflexivity. Qed.

Lemma silent_load_object name var : silent (load_object name var).
Proof. intros g. reflexivity. Qed.

Lemma silent_bind {A B : Type} (m : M A) (k : A -> M B) :
  silent m -> (forall a, silent (k a)) -> silent (bind m k).
Proof.
  intros Hm Hk g. specialize (Hm g). cbn. unfold M_bind.
  destruct (m g) as [[g1 t1] [a|e]]; unfold events_of in *; cbn in *; [|assumption].
  specialize (Hk a g1). destruct (k a g1) as [[g2 t2] r]. cbn in *.
  rewrite printed_lines_app, Hm, Hk. reflexivity.
Qed.

Lemma silent_and (a b : M bool) : silent a -> silent b -> silent (and_ a b).
Proof.
  intros Ha Hb. unfold and_. apply silent_bind; [assumption|].
  intros [|]; [assumption | apply silent_ret].
Qed.

Ltac silence :=
  repeat first
    [ apply silent_and
    | apply silent_bind
    | apply silent_ret
    | apply silent_lib_call
    | apply silent_assign
    | apply silent_load_module
    | apply silent_load_object
    | match goal with
      | |- silent (if ?b then _ else _) => destruct b
      | |- forall _, _ => intro
      end ].

Lemma prints_within_silent {A : Type} lo hi (m : M A) :
  silent m -> prints_within lo hi m.
Proof. intros Hm g. apply within_nil, Hm. Qed.

Lemma prints_within_print lo hi line args :
  (lo <= line <= hi)%nat -> prints_within lo hi (print line args).
Proof.
  intros Hline g. unfold within, events_of; cbn.
  split; repeat constructor; lia.
Qed.

(** Sequencing: what comes first in the text prints first. *)
Lemma prints_within_bind {A B : Type} lo mid hi (m : M A) (k : A -> M B) :
  (lo <= mid <= hi)%nat ->
  prints_within lo mid m ->
  (forall a, prints_within mid hi (k a)) ->
  prints_within lo hi (bind m k).
Proof.
  intros Hmid Hm Hk g. specialize (Hm g). cbn. unfold M_bind.
  destruct (m g) as [[g1 t1] [a|e]]; unfold events_of in *; cbn in *.
  - specialize (Hk a g1). destruct (k a g1) as [[g2 t2] r]. cbn in *.
    apply (within_app lo mid hi); assumption.
  - apply (within_weaken lo mid); [lia|lia|assumption].
Qed.

Lemma prints_within_weaken {A : Type} lo hi lo' hi' (m : M A) :
  (lo' <= lo)%nat -> (hi <= hi')%nat ->
  prints_within lo hi m -> prints_within lo' hi' m.
Proof. intros Hlo Hhi Hm g. apply (within_weaken lo hi); auto. Qed.

(** A loop prints the line of its body, again and again. *)
Lemma prints_within_for_each {A : Type} line (xs : list A) (body : A -> M unit) :
  (forall x, prints_within line line (body x)) ->
  prints_within line line (for_each xs body).
Proof.
  intros Hbody. induction xs as [|x xs IH]; cbn [for_each].
  - apply prints_within_silent, silent_ret.
  - apply (prints_within_bind line line line); [lia | apply Hbody | intros _; exact IH].
Qed.

Lemma report_device_prints_106 bytes_decode d :
  prints_within 106 106 (report_device bytes_decode d).
Proof.
  unfold report_device, assign_device, device_id, device_name, decode.
  apply (prints_within_bind 106 106 106); [lia | apply prints_within_silent; silence |].
  intros _.
  apply (prints_within_bind 106 106 106); [lia | apply prints_within_silent; silence |].
  intros i.
  apply (prints_within_bind 106 106 106); [lia | apply prints_within_silent; silence |].
  intros n.
  apply (prints_within_bind 106 106 106); [lia | apply prints_within_silent; silence |].
  intros s. apply prints_within_print; lia.
Qed.

(** The availability check prints in the order of its lines 97 to 109. *)
Lemma cell5_in_text_order bytes_decode L :
  prints_within 97 109 (cell5 bytes_decode L).
Proof.
  unfold cell5, import_platform, from_numba_import_cuda, platform_node,
    cuda_is_available, cuda_list_devices.
  apply (prints_within_bind 97 97 109); [lia | apply prints_within_silent; silence |].
  intros _.
  apply (prints_within_bind 97 97 109); [lia | apply prints_within_silent; silence |].
  intros _.
  apply (prints_within_bind 97 97 109); [lia | apply prints_within_print; lia |].
  intros _.
  apply (prints_within_bind 97 98 109); [lia | |].
  { apply (prints_within_bind 97 97 98); [lia | apply prints_within_silent; silence |].
    intros node. apply prints_within_print; lia. }
  intros _.
  apply (prints_within_bind 98 99 109); [lia | apply prints_within_print; lia |].
  intros _.
  apply (prints_within_bind 99 99 109); [lia | apply prints_within_silent; silence |].
  intros [|].
  - apply (prints_within_bind 99 99 109); [lia | apply prints_within_silent; silence |].
    intros devices. apply (prints_within_weaken 106 106); [lia|lia|].
    apply prints_within_for_each. apply report_device_prints_106.
  - apply prints_within_print; lia.
Qed.

(** The compute-capability check prints in the order of its lines 139 to 141. *)
Lemma cell7_in_text_order bytes_decode L :
  prints_within 139 141 (cell7 bytes_decode L).
Proof.
  unfold cell7, cuda_select_device, assign_my_instance,
    my_instance_compute_capability, my_instance_name, decode.
  apply (prints_within_bind 139 139 141); [lia | apply prints_within_silent; silence |].
  intros _.
  apply (prints_within_bind 139 139 141); [lia | apply prints_within_silent; silence |].
  intros [|].
  - apply (prints_within_bind 139 139 141); [lia | apply prints_within_silent; silence |].
    intros n.
    apply (prints_within_bind 139 139 141); [lia | apply prints_within_silent; silence |].
    intros s. apply prints_within_print; lia.
  - apply prints_within_print; lia.
Qed.

(** ** Each library function is called at most once *)

Lemma call_eqb_loop_call c' c :
  call_eqb c' c = true -> is_loop_call c' = is_loop_call c.
Proof.
  destruct c', c; cbn; try discriminate; try reflexivity.
  intros H. apply andb_prop in H. destruct H as [H _].
  apply String.eqb_eq in H. now subst.
Qed.

Lemma loop_count_calls c t :
  forallb is_loop_event t = true -> is_loop_call c = false -> count_calls c t = 0%nat.
Proof.
  intros Hloop Hc. induction t as [|[c' r|line text] t IH]; cbn in *.
  - reflexivity.
  - apply andb_prop in Hloop. destruct Hloop as [Hev Hrest].
    destruct (call_eqb c' c) eqn:Heq; [|auto].
    apply call_eqb_loop_call in Heq. rewrite Hc in Heq.
    destruct c'; cbn in *; congruence.
  - apply andb_prop in Hloop. tauto.
Qed.

Lemma cell5_count_calls bytes_decode L g c :
  In c library_functions ->
  (count_calls c (events_of (cell5 bytes_decode L g)) <=
   if call_eqb c (CudaSelectDevice 0) then 0 else 1)%nat.
Proof.
  intros Hc. unfold events_of. unfold_cell.
  destruct (Library.import_module L "platform") as [[]|e1]; cbn;
    [|destruct Hc as [<-|[<-|[<-|[<-|[<-|[<-|[]]]]]]]; cbn; lia].
  destruct (Library.import_module L "numba.cuda") as [[]|e2]; cbn;
    [|destruct Hc as [<-|[<-|[<-|[<-|[<-|[<-|[]]]]]]]; cbn; lia].
  destruct (Library.platform_node L) as [node|e3]; cbn;
    [|destruct Hc as [<-|[<-|[<-|[<-|[<-|[<-|[]]]]]]]; cbn; lia].
  destruct (Library.is_available L) as [[|]|e4]; cbn;
    [| destruct Hc as [<-|[<-|[<-|[<-|[<-|[<-|[]]]]]]]; cbn; lia
     | destruct Hc as [<-|[<-|[<-|[<-|[<-|[<-|[]]]]]]]; cbn; lia].
  destruct (Library.list_devices L) as [ds|e5]; cbn;
    [|destruct Hc as [<-|[<-|[<-|[<-|[<-|[<-|[]]]]]]]; cbn; lia].
  pose proof (loop_events bytes_decode ds (bind_modules g)) as Hloop.
  unfold bind_modules, events_of in Hloop.
  destruct (for_each ds (report_device bytes_decode) _) as [[g' t] r]. cbn in *.
  destruct Hc as [<-|[<-|[<-|[<-|[<-|[<-|[]]]]]]]; cbn;
    rewrite loop_count_calls by first [exact Hloop | reflexivity]; lia.
Qed.

Lemma cell7_count_calls bytes_decode L g c :
  In c library_functions ->
  (count_calls c (events_of (cell7 bytes_decode L g)) <=
   if call_eqb c (CudaSelectDevice 0) then 1 else 0)%nat.
Proof.
  intros Hc. unfold events_of. unfold_cell.
  destruct Hc as [<-|[<-|[<-|[<-|[<-|[<-|[]]]]]]]; split_run; lia.
Qed.

(** X11. In one execution of the notebook each function of [platform] and
    [numba.cuda] is called at most once: each of the two imports,
    [platform.node], [cuda.is_available], [cuda.list_devices] and
    [cuda.select_device(0)], whatever the libraries answer and however many
    devices are listed. *)
Lemma library_calls_at_most_once bytes_decode L c :
  In c library_functions ->
  (count_calls c (flat_map log (run_notebook bytes_decode L)) <= 1)%nat.
Proof.
  intros Hc. rewrite run_notebook_unfold.
  pose proof (cell5_count_calls bytes_decode L Globals.fresh c Hc) as H5.
  destruct (cell5 bytes_decode L Globals.fresh) as [[g5 t5] [[]|e5]];
    unfold events_of in *; cbn in H5.
  - pose proof (cell7_count_calls bytes_decode L g5 c Hc) as H7.
    destruct (cell7 bytes_decode L g5) as [[g7 t7] [[]|e7]];
      unfold events_of in *; cbn in H7 |- *;
      rewrite app_nil_r, count_calls_app;
      destruct (call_eqb c (CudaSelectDevice 0)); lia.
  - cbn. rewrite app_nil_r. destruct (call_eqb c (CudaSelectDevice 0)); lia.
Qed.

Lemma library_calls_at_most_once_witness :
  In CudaIsAvailable library_functions /\
  (count_calls CudaIsAvailable
     (flat_map log (run_notebook decode_ascii (host [gt710; k20; gtx680]))) <= 1)%nat.
Proof.
  assert (Hin : In CudaIsAvailable library_functions).
  { right. right. right. left. reflexivity. }
  split; [exact Hin|].
  exact (library_calls_at_most_once decode_ascii (host [gt710; k20; gtx680])
           CudaIsAvailable Hin).
Defined.

(** * Further properties of the two cells *)

(** ** The loop stops at the first device it cannot report *)

Section LoopFailure.
Variable bytes_decode : list byte -> result string.

Lemma report_device_unreadable g d e :
  unreadable bytes_decode d e ->
  exists t,
    report_device bytes_decode d g = (bind_device g d, t, Raise e) /\
    stdout t = [].
Proof.
  intros [Hid|[i [Hid [Hname|[b [Hname Hdec]]]]]];
    unfold report_device; unfold_cell; rewrite Hid; cbn;
    try (rewrite Hname; cbn); try (rewrite Hdec; cbn);
    eexists; split; reflexivity.
Qed.

Lemma loop_stops ds1 :
  forall infos g d ds2 e,
    Forall2 (fun d p => readable bytes_decode d (fst p) (snd p)) ds1 infos ->
    unreadable bytes_decode d e ->
    let run := for_each (ds1 ++ d :: ds2) (report_device bytes_decode) g in
    stdout (events_of run) = map (fun p => device_text (fst p) (snd p)) infos /\
    result_of run = Raise e /\
    Globals.device (globals_of run) = Some d.
Proof.
  induction ds1 as [|d1 ds1 IH]; intros infos g d ds2 e Hall Hbad;
    inversion Hall as [|? [i s] ? ? Hd Hrest]; subst; cbn zeta.
  - cbn [app]. rewrite for_each_cons.
    destruct (report_device_unreadable g d e Hbad) as [t [Hrun Hout]].
    rewrite Hrun. unfold events_of, result_of, globals_of; cbn. auto.
  - cbn [app]. rewrite for_each_cons.
    destruct (report_device_readable bytes_decode g d1 i s Hd) as [t [Hrun Hout]].
    rewrite Hrun.
    destruct (IH _ (bind_device g d1) d ds2 e Hrest Hbad) as [IHout [IHres IHdev]].
    destruct (for_each (ds1 ++ d :: ds2) (report_device bytes_decode)
                (bind_device g d1)) as [[g2 t2] r].
    unfold events_of, result_of, globals_of in *; cbn in *.
    rewrite stdout_app, Hout, IHout. auto.
Qed.

End LoopFailure.

(** X1. When the enumeration meets a device it cannot report (its identifier
    or name cannot be read, or its name does not decode), the availability
    check has printed the banner and one line for each device before that
    one, prints nothing for that device or the devices after it, ends in the
    exception of the failing read, and leaves [device] bound to the failing
    device. *)
Theorem enumeration_stops_at_first_failure :
  forall bytes_decode L g ds1 d ds2 infos e,
    reported true (events_of (cell5 bytes_decode L g)) ->
    Library.list_devices L = Ok (ds1 ++ d :: ds2)%list ->
    Forall2 (fun d p => readable bytes_decode d (fst p) (snd p)) ds1 infos ->
    unreadable bytes_decode d e ->
    (exists node,
       stdout (events_of (cell5 bytes_decode L g)) =
       (banner_text node ++ map (fun p => device_text (fst p) (snd p)) infos)%list) /\
    length (stdout_at 106 (events_of (cell5 bytes_decode L g))) = length ds1 /\
    result_of (cell5 bytes_decode L g) = Raise e /\
    Globals.device (globals_of (cell5 bytes_decode L g)) = Some d.
Proof.
  intros dec L g ds1 d ds2 infos e Hrep Hlist Hall Hbad.
  destruct (cell5_reported dec L g true Hrep) as [node [H1 [H2 [H3 H4]]]].
  clear Hrep.
  rewrite (cell5_available dec L g node _ H1 H2 H3 H4 Hlist).
  pose proof (loop_events dec (ds1 ++ d :: ds2) (bind_modules g)) as Hloop.
  destruct (loop_stops dec ds1 infos (bind_modules g) d ds2 e Hall Hbad)
    as [Hout [Hres Hdev]].
  destruct (for_each (ds1 ++ d :: ds2) (report_device dec) (bind_modules g))
    as [[g' t] r].
  unfold events_of, result_of, globals_of in *; cbn in *.
  rewrite (loop_stdout_at t Hloop), Hout.
  repeat split; try assumption.
  - exists node. reflexivity.
  - rewrite length_map. symmetry. exact (Forall2_length Hall).
Qed.

Lemma enumeration_stops_at_first_failure_witness :
  let L := host [gt710; garbled; k20] in
  let e := PyErr "UnicodeDecodeError" "invalid start byte" in
  reported true (events_of (cell5 decode_ascii L Globals.fresh)) /\
  unreadable decode_ascii garbled e /\
  (exists node,
     stdout (events_of (cell5 decode_ascii L Globals.fresh)) =
     (banner_text node ++
      map (fun p => device_text (fst p) (snd p)) [(0, "GeForce GT 710")])%list) /\
  length (stdout_at 106 (events_of (cell5 decode_ascii L Globals.fresh))) =
    length [gt710] /\
  result_of (cell5 decode_ascii L Globals.fresh) = Raise e /\
  Globals.device (globals_of (cell5 decode_ascii L Globals.fresh)) = Some garbled.
Proof.
  assert (Hrep : reported true
                   (events_of (cell5 decode_ascii (host [gt710; garbled; k20])
                                 Globals.fresh))).
  { unfold reported. vm_compute. tauto. }
  assert (Hbad : unreadable decode_ascii garbled
                   (PyErr "UnicodeDecodeError" "invalid start byte")).
  { right. exists 1. split; [reflexivity|]. right.
    exists [Byte.xff; Byte.xfe]. split; reflexivity. }
  assert (Hall : Forall2 (fun d p => readable decode_ascii d (fst p) (snd p))
                   [gt710] [(0, "GeForce GT 710")]).
  { repeat constructor; cbn; eexists; split; reflexivity. }
  split; [exact Hrep|]. split; [exact Hbad|].
  exact (enumeration_stops_at_first_failure decode_ascii
           (host [gt710; garbled; k20]) Globals.fresh
           [gt710] garbled [k20] [(0, "GeForce GT 710")]
           (PyErr "UnicodeDecodeError" "invalid start byte")
           Hrep eq_refl Hall Hbad).
Defined.

(** ** When the cells complete *)

Lemma report_device_completes bytes_decode g d :
  result_of (report_device bytes_decode d g) = Ok tt ->
  exists i s, readable bytes_decode d i s.
Proof.
  unfold result_of, report_device, readable. unfold_cell.
  destruct (Device.id d) as [i|e1]; cbn; [|discriminate].
  destruct (Device.name d) as [b|e2]; cbn; [|discriminate].
  destruct (bytes_decode b) as [s|e3] eqn:Hdec; cbn; [|discriminate].
  intros _. exists i, s. split; [reflexivity|]. exists b. auto.
Qed.

(** The loop runs to its end exactly when every device is readable. *)
Lemma loop_completes_iff bytes_decode ds :
  forall g,
    result_of (for_each ds (report_device bytes_decode) g) = Ok tt <->
    exists infos, Forall2 (fun d p => readable bytes_decode d (fst p) (snd p)) ds infos.
Proof.
  induction ds as [|d ds IH]; intros g.
  - split; [intros _; exists []; constructor | reflexivity].
  - split.
    + rewrite for_each_cons. intros Hdone.
      pose proof (report_device_completes bytes_decode g d) as Hd.
      destruct (report_device bytes_decode d g) as [[g1 t1] [[]|e]];
        unfold result_of in *; cbn in *; [|discriminate].
      destruct (Hd eq_refl) as [i [s Hread]].
      specialize (IH g1).
      destruct (for_each ds (report_device bytes_decode) g1) as [[g2 t2] r].
      cbn in *. destruct (proj1 IH Hdone) as [infos Hall].
      exists ((i, s) :: infos). constructor; assumption.
    + intros [infos Hall].
      exact (proj2 (loop_readable bytes_decode (d :: ds) infos g Hall)).
Qed.

(** What a completed availability check tells about the answers it got. *)
Lemma cell5_completes_header bytes_decode L g :
  result_of (cell5 bytes_decode L g) = Ok tt ->
  Library.import_module L "platform" = Ok tt /\
  Library.import_module L "numba.cuda" = Ok tt /\
  exists node,
    Library.platform_node L = Ok node /\
    (Library.is_available L = Ok false \/
     (Library.is_available L = Ok true /\
      exists ds,
        Library.list_devices L = Ok ds /\
        result_of (for_each ds (report_device bytes_decode) (bind_modules g)) = Ok tt)).
Proof.
  unfold result_of. unfold_cell.
  destruct (Library.import_module L "platform") as [[]|e1]; cbn; [|discriminate].
  destruct (Library.import_module L "numba.cuda") as [[]|e2]; cbn; [|discriminate].
  destruct (Library.platform_node L) as [node|e3]; cbn; [|discriminate].
  destruct (Library.is_available L) as [[|]|e4]; cbn; [| |discriminate].
  - destruct (Library.list_devices L) as [ds|e5]; cbn; [|discriminate].
    unfold bind_modules.
    destruct (for_each ds (report_device bytes_decode) _) as [[g' t] r] eqn:Hloop.
    cbn. intros Hdone. repeat split.
    exists node. split; [reflexivity|]. right. split; [reflexivity|].
    exists ds. split; [reflexivity|]. rewrite Hloop. exact Hdone.
  - intros _. repeat split; eauto.
Qed.

(** X2. The availability check completes without an exception exactly when
    both imports and [platform.node()] succeed and either
    [cuda.is_available()] answers false, or it answers true,
    [cuda.list_devices()] returns a list and every device of the list has a
    readable identifier and a name that decodes.  With [is_available] false
    the answers of [list_devices] and the devices play no part. *)
Theorem availability_check_completes_iff :
  forall bytes_decode L g,
    result_of (cell5 bytes_decode L g) = Ok tt <->
    Library.import_module L "platform" = Ok tt /\
    Library.import_module L "numba.cuda" = Ok tt /\
    (exists node, Library.platform_node L = Ok node) /\
    (Library.is_available L = Ok false \/
     (Library.is_available L = Ok true /\
      exists ds infos,
        Library.list_devices L = Ok ds /\
        Forall2 (fun d p => readable bytes_decode d (fst p) (snd p)) ds infos)).
Proof.
  intros dec L g. split.
  - intros Hdone.
    destruct (cell5_completes_header dec L g Hdone)
      as [H1 [H2 [node [H3 [H4|[H4 [ds [Hlist Hloop]]]]]]]].
    + repeat split; eauto.
    + destruct (proj1 (loop_completes_iff dec ds (bind_modules g)) Hloop)
        as [infos Hall].
      repeat split; eauto. right. split; [assumption|]. eauto.
  - intros [H1 [H2 [[node H3] [H4|[H4 [ds [infos [Hlist Hall]]]]]]]].
    + rewrite (cell5_unavailable dec L g node H1 H2 H3 H4). reflexivity.
    + rewrite (cell5_available dec L g node ds H1 H2 H3 H4 Hlist).
      pose proof (proj2 (loop_readable dec ds infos (bind_modules g) Hall)) as Hres.
      destruct (for_each ds (report_device dec) (bind_modules g)) as [[g' t] r].
      exact Hres.
Qed.

(** X3. The compute-capability check completes without an exception exactly
    when [cuda] is bound, [select_device(0)] returns a device, its
    [compute_capability] can be read and, if both thresholds are met, its
    name can be read and decoded.  The name of a device that fails a
    threshold is never read and nothing is decoded, so it cannot make the
    check fail: the log of such a run holds no read of [my_instance.name]
    and no [decode], and the check completes. *)
Theorem capability_check_completes_iff :
  forall bytes_decode L g,
    (result_of (cell7 bytes_decode L g) = Ok tt <->
     Globals.cuda g = true /\
     exists h major minor,
       Library.select_device L 0 = Ok h /\
       Device.compute_capability h = Ok (major, minor) /\
       ((major >=? 2) && (minor >=? 1) = true ->
        exists b s, Device.name h = Ok b /\ bytes_decode b = Ok s)) /\
    (forall h major minor,
       Globals.cuda g = true ->
       Library.select_device L 0 = Ok h ->
       Device.compute_capability h = Ok (major, minor) ->
       (major >=? 2) && (minor >=? 1) = false ->
       (forall r, ~ In (Lib (GetAttr "my_instance" "name") r)
                       (events_of (cell7 bytes_decode L g))) /\
       (forall b r, ~ In (Lib (Decode b) r) (events_of (cell7 bytes_decode L g))) /\
       result_of (cell7 bytes_decode L g) = Ok tt).
Proof.
  intros dec L g. split; [split|].
  - unfold result_of. unfold_cell.
    destruct (Globals.cuda g); cbn; [|discriminate].
    destruct (Library.select_device L 0) as [h|e1]; cbn; [|discriminate].
    destruct (Device.compute_capability h) as [[major minor]|e2] eqn:Hcc; cbn;
      [|discriminate].
    destruct (major >=? 2) eqn:Hmajor; cbn.
    + rewrite Hcc; cbn. destruct (minor >=? 1) eqn:Hminor; cbn.
      * destruct (Device.name h) as [b|e3] eqn:Hname; cbn; [|discriminate].
        destruct (dec b) as [s|e4] eqn:Hdec; cbn; [|discriminate].
        intros _. split; [reflexivity|]. exists h, major, minor.
        rewrite Hmajor, Hminor. repeat split; eauto.
      * intros _. split; [reflexivity|]. exists h, major, minor.
        rewrite Hmajor, Hminor. repeat split; auto. discriminate.
    + intros _. split; [reflexivity|]. exists h, major, minor.
      rewrite Hmajor. repeat split; auto. discriminate.
  - intros [Hg [h [major [minor [Hsel [Hcc Hname]]]]]].
    destruct (Z.geb_spec major 2) as [Hmajor|Hlow].
    + destruct (Z.geb_spec minor 1) as [Hminor|Hlow].
      * destruct (Hname eq_refl) as [b [s [Hb Hs]]].
        rewrite (cell7_sufficient dec L g Hg h Hsel major minor Hcc b s
                   Hmajor Hminor Hb Hs).
        reflexivity.
      * rewrite (cell7_minor_low dec L g Hg h Hsel major minor Hcc Hmajor Hlow).
        reflexivity.
    + rewrite (cell7_major_low dec L g Hg h Hsel major minor Hcc Hlow).
      reflexivity.
  - intros h major minor Hg Hsel Hcc Hfail.
    destruct (Z.geb_spec major 2) as [Hmajor|Hlow].
    + destruct (Z.geb_spec minor 1) as [Hminor|Hlow]; [discriminate Hfail|].
      rewrite (cell7_minor_low dec L g Hg h Hsel major minor Hcc Hmajor Hlow).
      repeat split; try reflexivity; intros; intro; in_log.
    + rewrite (cell7_major_low dec L g Hg h Hsel major minor Hcc Hlow).
      repeat split; try reflexivity; intros; intro; in_log.
Qed.

(** ** What the cells leave in the globals *)

Lemma last_cons_default {A : Type} (x : A) (l : list A) (d : A) :
  last (x :: l) d = last l x.
Proof.
  revert x d. induction l as [|y l IH]; intros x d; [reflexivity|].
  change (last (x :: y :: l) d) with (last (y :: l) d).
  rewrite (IH y d), (IH y x). reflexivity.
Qed.

(** A loop that runs to its end leaves [device] bound to the last device. *)
Lemma loop_leaves_last_device bytes_decode ds :
  forall g,
    result_of (for_each ds (report_device bytes_decode) g) = Ok tt ->
    Globals.device (globals_of (for_each ds (report_device bytes_decode) g)) =
    device_after ds (Globals.device g).
Proof.
  induction ds as [|d ds IH]; intros g; [reflexivity|].
  rewrite for_each_cons. intros Hdone.
  destruct (report_device_completes bytes_decode g d) as [i [s Hread]].
  { destruct (report_device bytes_decode d g) as [[g1 t1] [[]|e]];
      unfold result_of in *; cbn in *; [reflexivity|discriminate]. }
  destruct (report_device_readable bytes_decode g d i s Hread) as [t [Hrun _]].
  rewrite Hrun in *.
  specialize (IH (bind_device g d)).
  destruct (for_each ds (report_device bytes_decode) (bind_device g d))
    as [[g2 t2] r].
  unfold result_of, globals_of, device_after in *; cbn in *.
  rewrite (IH Hdone). cbn [map]. symmetry. apply last_cons_default.
Qed.

(** X4. A completed availability check leaves [platform] and [cuda] bound
    and [my_instance] as it was; [device] is bound to the last device of the
    enumeration if [is_available] answered true and the list was not empty,
    and is left as it was otherwise. *)
Theorem availability_check_globals :
  forall bytes_decode L g,
    result_of (cell5 bytes_decode L g) = Ok tt ->
    let g' := globals_of (cell5 bytes_decode L g) in
    Globals.platform g' = true /\
    Globals.cuda g' = true /\
    Globals.my_instance g' = Globals.my_instance g /\
    Globals.device g' =
      match Library.is_available L, Library.list_devices L with
      | Ok true, Ok ds => device_after ds (Globals.device g)
      | _, _ => Globals.device g
      end.
Proof.
  intros dec L g Hdone.
  destruct (cell5_completes_header dec L g Hdone)
    as [H1 [H2 [node [H3 [H4|[H4 [ds [Hlist Hloop]]]]]]]]; cbn zeta.
  - rewrite (cell5_unavailable dec L g node H1 H2 H3 H4), H4.
    unfold globals_of; cbn. auto.
  - rewrite (cell5_available dec L g node ds H1 H2 H3 H4 Hlist), H4, Hlist.
    pose proof (loop_keeps_globals dec ds (bind_modules g)) as Hkeep.
    pose proof (loop_leaves_last_device dec ds (bind_modules g) Hloop) as Hlast.
    cbn zeta in Hkeep.
    destruct (for_each ds (report_device dec) (bind_modules g)) as [[g' t] r].
    unfold globals_of in *; cbn in *. tauto.
Qed.

Lemma availability_check_globals_witness :
  let L := host [gtx680; k20] in
  let g' := globals_of (cell5 decode_ascii L Globals.fresh) in
  result_of (cell5 decode_ascii L Globals.fresh) = Ok tt /\
  Globals.platform g' = true /\
  Globals.cuda g' = true /\
  Globals.my_instance g' = Globals.my_instance Globals.fresh /\
  Globals.device g' =
    match Library.is_available L, Library.list_devices L with
    | Ok true, Ok ds => device_after ds (Globals.device Globals.fresh)
    | _, _ => Globals.device Globals.fresh
    end /\
  Globals.device g' = Some k20.
Proof.
  split; [reflexivity|].
  destruct (availability_check_globals decode_ascii (host [gtx680; k20])
              Globals.fresh eq_refl) as [H1 [H2 [H3 H4]]].
  split; [exact H1|]. split; [exact H2|]. split; [exact H3|].
  split; [exact H4|]. reflexivity.
Defined.

(** X5. The compute-capability check changes no global but [my_instance]:
    [my_instance] is bound to the device that [select_device(0)] returns as
    soon as the call returns, also when a later line of the cell raises, and
    is left as it was when [cuda] is unbound or the call raises. *)
Theorem capability_check_globals :
  forall bytes_decode L g,
    let g' := globals_of (cell7 bytes_decode L g) in
    Globals.platform g' = Globals.platform g /\
    Globals.cuda g' = Globals.cuda g /\
    Globals.device g' = Globals.device g /\
    Globals.my_instance g' =
      match Globals.cuda g, Library.select_device L 0 with
      | true, Ok h => Some h
      | _, _ => Globals.my_instance g
      end.
Proof.
  intros dec L g. unfold globals_of. unfold_cell.
  destruct (Globals.cuda g) eqn:Hg; cbn; [|auto].
  destruct (Library.select_device L 0) as [h|e]; cbn; [|auto].
  split_run; auto.
Qed.

(** X6. On a kernel where [cuda] is not bound (cell 5 has not run, or its
    import failed), the compute-capability check ends in
    [NameError: name 'cuda' is not defined] before any library call: nothing
    is selected, nothing is printed and no global changes. *)
Theorem capability_check_needs_import :
  forall bytes_decode L g,
    Globals.cuda g = false ->
    cell7 bytes_decode L g = (g, [], Raise (NameError "cuda")).
Proof.
  intros dec L g Hg. unfold_cell. rewrite Hg. reflexivity.
Qed.

Lemma capability_check_needs_import_witness :
  Globals.cuda Globals.fresh = false /\
  cell7 decode_ascii (host [gt710]) Globals.fresh =
  (Globals.fresh, [], Raise (NameError "cuda")).
Proof.
  split; [reflexivity|].
  apply (capability_check_needs_import decode_ascii (host [gt710]) Globals.fresh).
  reflexivity.
Defined.

(** ** Every failure of an execution is a failure of a library call *)

Lemma not_clean_app t1 t2 : ~ clean t2 -> ~ clean (t1 ++ t2).
Proof.
  unfold clean. rewrite forallb_app. intros H2 H.
  apply andb_prop in H. tauto.
Qed.

Lemma report_device_failure bytes_decode g d e :
  result_of (report_device bytes_decode d g) = Raise e ->
  ~ clean (events_of (report_device bytes_decode d g)).
Proof.
  unfold result_of, events_of, clean, report_device. unfold_cell.
  split_run; intros H F; discriminate.
Qed.

Lemma loop_failure bytes_decode ds :
  forall g e,
    result_of (for_each ds (report_device bytes_decode) g) = Raise e ->
    ~ clean (events_of (for_each ds (report_device bytes_decode) g)).
Proof.
  induction ds as [|d ds IH]; intros g e; [discriminate|].
  rewrite for_each_cons.
  pose proof (report_device_failure bytes_decode g d) as Hd.
  destruct (report_device bytes_decode d g) as [[g1 t1] [[]|e1]];
    unfold result_of, events_of in *; cbn in *.
  - specialize (IH g1 e).
    destruct (for_each ds (report_device bytes_decode) g1) as [[g2 t2] r].
    cbn in *. intros Hr. apply not_clean_app. auto.
  - intros _. apply (Hd e1). reflexivity.
Qed.

(** The availability check binds its names before it uses them: it never
    ends in a [NameError] of its own. *)
Lemma cell5_failure bytes_decode L g e :
  result_of (cell5 bytes_decode L g) = Raise e ->
  ~ clean (events_of (cell5 bytes_decode L g)).
Proof.
  unfold result_of, events_of. unfold_cell.
  destruct (Library.import_module L "platform") as [[]|e1]; cbn;
    [|intros _ F; discriminate F].
  destruct (Library.import_module L "numba.cuda") as [[]|e2]; cbn;
    [|intros _ F; discriminate F].
  destruct (Library.platform_node L) as [node|e3]; cbn;
    [|intros _ F; discriminate F].
  destruct (Library.is_available L) as [[|]|e4]; cbn;
    [|discriminate|intros _ F; discriminate F].
  destruct (Library.list_devices L) as [ds|e5]; cbn;
    [|intros _ F; discriminate F].
  pose proof (loop_failure bytes_decode ds (bind_modules g) e) as Hloop.
  unfold bind_modules, result_of, events_of in Hloop.
  destruct (for_each ds (report_device bytes_decode) _) as [[g' t] r]. cbn in *.
  intros Hr F. exact (Hloop Hr F).
Qed.

Lemma cell7_failure bytes_decode L g e :
  Globals.cuda g = true ->
  result_of (cell7 bytes_decode L g) = Raise e ->
  ~ clean (events_of (cell7 bytes_decode L g)).
Proof.
  intros Hg. unfold result_of, events_of, clean. unfold_cell. rewrite Hg; cbn.
  split_run; intros H F; discriminate.
Qed.

(** X7. In an execution of the notebook from a fresh kernel every name is
    bound before it is used: a cell that ends in an exception [e] was ended by
    a library call that raised [e], the last event of its log and the only
    call of that cell that raised; no cell ends in a [NameError] of the
    interpreter. *)
Theorem every_failure_is_a_library_failure :
  forall bytes_decode L r e,
    In r (run_notebook bytes_decode L) ->
    status r = Raise e ->
    exists pre c, log r = (pre ++ [Lib c (Raise e)])%list /\ clean pre.
Proof.
  intros dec L r e Hin Hstatus.
  assert (Hcell : forall (m : M unit) g,
             propagates m ->
             (forall e', result_of (m g) = Raise e' -> ~ clean (events_of (m g))) ->
             result_of (m g) = Raise e ->
             exists pre c, events_of (m g) = (pre ++ [Lib c (Raise e)])%list /\ clean pre).
  { intros m g Hprop Hfail Hres. specialize (Hprop g). rewrite Hres in Hprop.
    destruct Hprop as [Hcall|[_ Hclean]]; [exact Hcall|].
    destruct (Hfail e Hres Hclean). }
  rewrite run_notebook_unfold in Hin.
  pose proof (Hcell (cell5 dec L) Globals.fresh (propagates_cell5 dec L)
                (cell5_failure dec L Globals.fresh)) as H5.
  pose proof (cell5_binds_cuda dec L Globals.fresh) as Hcuda.
  destruct (cell5 dec L Globals.fresh) as [[g5 t5] [[]|e5]];
    unfold result_of, events_of, globals_of in *; cbn in *.
  - pose proof (Hcell (cell7 dec L) g5 (propagates_cell7 dec L)
                  (fun e' => cell7_failure dec L g5 e' (Hcuda eq_refl))) as H7.
    destruct (cell7 dec L g5) as [[g7 t7] [[]|e7]];
      unfold result_of, events_of in *; cbn in *;
      destruct Hin as [<-|[<-|[]]]; cbn in *; try discriminate.
    inversion Hstatus; subst. auto.
  - destruct Hin as [<-|[]]. cbn in *. inversion Hstatus; subst. auto.
Qed.

Lemma every_failure_is_a_library_failure_witness :
  let r := {| index := 7;
              log := [Lib (CudaSelectDevice 0) (Raise no_driver)];
              status := Raise no_driver |} in
  In r (run_notebook decode_ascii ridcully) /\
  exists pre c, log r = (pre ++ [Lib c (Raise no_driver)])%list /\ clean pre.
Proof.
  assert (Hin : In {| index := 7;
                      log := [Lib (CudaSelectDevice 0) (Raise no_driver)];
                      status := Raise no_driver |}
                   (run_notebook decode_ascii ridcully)).
  { right. left. reflexivity. }
  split; [exact Hin|].
  exact (every_failure_is_a_library_failure decode_ascii ridcully _ no_driver
           Hin eq_refl).
Defined.

(** ** Each cell keeps to its own calls *)

Lemma calls_only_app allowed t1 t2 :
  calls_only allowed t1 -> calls_only allowed t2 -> calls_only allowed (t1 ++ t2).
Proof. unfold calls_only. intros H1 H2. rewrite forallb_app, H1, H2. reflexivity. Qed.

Lemma calls_only_called allowed t c :
  calls_only allowed t -> called c t -> allowed c = true.
Proof.
  unfold calls_only. intros Hall [r Hin].
  rewrite forallb_forall in Hall. exact (Hall _ Hin).
Qed.

Lemma report_device_calls bytes_decode g d :
  calls_only cell5_call (events_of (report_device bytes_decode d g)).
Proof.
  unfold calls_only, events_of, report_device. unfold_cell.
  split_run; reflexivity.
Qed.

Lemma loop_calls bytes_decode ds :
  forall g, calls_only cell5_call
              (events_of (for_each ds (report_device bytes_decode) g)).
Proof.
  induction ds as [|d ds IH]; intros g; [reflexivity|].
  rewrite for_each_cons.
  pose proof (report_device_calls bytes_decode g d) as Hd.
  destruct (report_device bytes_decode d g) as [[g1 t1] [[]|e]];
    unfold events_of in *; cbn in *; [|exact Hd].
  specialize (IH g1).
  destruct (for_each ds (report_device bytes_decode) g1) as [[g2 t2] r].
  cbn in *. apply calls_only_app; assumption.
Qed.

Lemma cell5_calls_only bytes_decode L g :
  calls_only cell5_call (events_of (cell5 bytes_decode L g)).
Proof.
  unfold events_of. unfold_cell.
  destruct (Library.import_module L "platform") as [[]|e1]; cbn; [|reflexivity].
  destruct (Library.import_module L "numba.cuda") as [[]|e2]; cbn; [|reflexivity].
  destruct (Library.platform_node L) as [node|e3]; cbn; [|reflexivity].
  destruct (Library.is_available L) as [[|]|e4]; cbn; [|reflexivity|reflexivity].
  destruct (Library.list_devices L) as [ds|e5]; cbn; [|reflexivity].
  pose proof (loop_calls bytes_decode ds (bind_modules g)) as Hloop.
  unfold bind_modules, events_of in Hloop.
  destruct (for_each ds (report_device bytes_decode) _) as [[g' t] r].
  exact Hloop.
Qed.

Lemma cell7_calls_only bytes_decode L g :
  calls_only cell7_call (events_of (cell7 bytes_decode L g)).
Proof.
  unfold calls_only, events_of. unfold_cell. split_run; reflexivity.
Qed.

(** The loop body binds [device] before it reads it. *)
Lemma report_device_same_run bytes_decode d g1 g2 :
  events_of (report_device bytes_decode d g1) =
    events_of (report_device bytes_decode d g2) /\
  result_of (report_device bytes_decode d g1) =
    result_of (report_device bytes_decode d g2).
Proof.
  unfold events_of, result_of, report_device. unfold_cell.
  split_run; auto.
Qed.

Lemma loop_same_run bytes_decode ds :
  forall g1 g2,
    events_of (for_each ds (report_device bytes_decode) g1) =
      events_of (for_each ds (report_device bytes_decode) g2) /\
    result_of (for_each ds (report_device bytes_decode) g1) =
      result_of (for_each ds (report_device bytes_decode) g2).
Proof.
  induction ds as [|d ds IH]; intros g1 g2; [split; reflexivity|].
  rewrite !for_each_cons.
  destruct (report_device_same_run bytes_decode d g1 g2) as [Hev Hres].
  destruct (report_device bytes_decode d g1) as [[g1' t1] r1];
    destruct (report_device bytes_decode d g2) as [[g2' t2] r2].
  unfold events_of, result_of in Hev, Hres; cbn in Hev, Hres. subst t2 r2.
  destruct r1 as [[]|e]; [|split; reflexivity].
  destruct (IH g1' g2') as [IHev IHres].
  destruct (for_each ds (report_device bytes_decode) g1') as [[g1'' t1'] r1'];
    destruct (for_each ds (report_device bytes_decode) g2') as [[g2'' t2'] r2'].
  unfold events_of, result_of in *; cbn in *. subst. split; reflexivity.
Qed.

(** The availability check binds every name before it reads it. *)
Lemma cell5_same_run bytes_decode L g1 g2 :
  events_of (cell5 bytes_decode L g1) = events_of (cell5 bytes_decode L g2) /\
  result_of (cell5 bytes_decode L g1) = result_of (cell5 bytes_decode L g2).
Proof.
  unfold events_of, result_of. unfold_cell.
  destruct (Library.import_module L "platform") as [[]|e1]; cbn; [|auto].
  destruct (Library.import_module L "numba.cuda") as [[]|e2]; cbn; [|auto].
  destruct (Library.platform_node L) as [node|e3]; cbn; [|auto].
  destruct (Library.is_available L) as [[|]|e4]; cbn; [|auto|auto].
  destruct (Library.list_devices L) as [ds|e5]; cbn; [|auto].
  destruct (loop_same_run bytes_decode ds (bind_modules g1) (bind_modules g2))
    as [Hev Hres].
  unfold bind_modules, events_of, result_of in Hev, Hres.
  destruct (for_each ds (report_device bytes_decode)
              (Globals.mk true true (Globals.device g1) (Globals.my_instance g1)))
    as [[g1' t1] r1];
    destruct (for_each ds (report_device bytes_decode)
                (Globals.mk true true (Globals.device g2) (Globals.my_instance g2)))
      as [[g2' t2] r2].
  cbn in *. subst. auto.
Qed.

Lemma same_answers_refl r : same_answers r r.
Proof. destruct r; cbn; auto. Qed.

(** The compute-capability check reads no global but [cuda] before it has
    bound it. *)
Lemma cell7_frame bytes_decode L g1 g2 :
  Globals.cuda g1 = Globals.cuda g2 ->
  events_of (cell7 bytes_decode L g1) = events_of (cell7 bytes_decode L g2) /\
  result_of (cell7 bytes_decode L g1) = result_of (cell7 bytes_decode L g2).
Proof.
  intros Hcuda. destruct (Globals.cuda g2) eqn:Hg2.
  - exact (cell7_same_run bytes_decode L L g1 g2 Hcuda Hg2 (same_answers_refl _)).
  - unfold events_of, result_of. unfold_cell. rewrite Hcuda, Hg2. auto.
Qed.

(** X8. Each cell makes only the calls of its own text, in every run.  The
    availability check never selects a device and never touches
    [my_instance]; the compute-capability check never imports, never asks
    for the host name, never calls [is_available] or [list_devices], never
    reads [device], and selects no device but device 0.  Neither cell reads
    a global it has not bound itself, but for [cuda] in cell 7: the log and
    the result of the availability check are the same from any globals, and
    those of the compute-capability check are the same from any two globals
    that agree on whether [cuda] is bound, whatever [device], [my_instance]
    and [platform] are. *)
Theorem cells_keep_to_their_calls :
  forall bytes_decode L g,
    let t5 := events_of (cell5 bytes_decode L g) in
    let t7 := events_of (cell7 bytes_decode L g) in
    (forall c, called c t5 -> cell5_call c = true) /\
    (forall c, called c t7 -> cell7_call c = true) /\
    (forall n, ~ called (CudaSelectDevice n) t5) /\
    (forall attr, ~ called (GetAttr "my_instance" attr) t5) /\
    Globals.my_instance (globals_of (cell5 bytes_decode L g)) = Globals.my_instance g /\
    (forall module, ~ called (Import module) t7) /\
    ~ called PlatformNode t7 /\
    ~ called CudaIsAvailable t7 /\
    ~ called CudaListDevices t7 /\
    (forall attr, ~ called (GetAttr "device" attr) t7) /\
    (forall n, called (CudaSelectDevice n) t7 -> n = 0) /\
    (forall g',
       events_of (cell5 bytes_decode L g') = t5 /\
       result_of (cell5 bytes_decode L g') = result_of (cell5 bytes_decode L g)) /\
    (forall g',
       Globals.cuda g' = Globals.cuda g ->
       events_of (cell7 bytes_decode L g') = t7 /\
       result_of (cell7 bytes_decode L g') = result_of (cell7 bytes_decode L g)).
Proof.
  intros dec L g t5 t7.
  assert (H5 : forall c, called c t5 -> cell5_call c = true).
  { intros c. apply calls_only_called, cell5_calls_only. }
  assert (H7 : forall c, called c t7 -> cell7_call c = true).
  { intros c. apply calls_only_called, cell7_calls_only. }
  assert (Hkeep : Globals.my_instance (globals_of (cell5 dec L g)) =
                  Globals.my_instance g).
  { unfold globals_of. unfold_cell.
    destruct (Library.import_module L "platform") as [[]|e1]; cbn; [|reflexivity].
    destruct (Library.import_module L "numba.cuda") as [[]|e2]; cbn; [|reflexivity].
    destruct (Library.platform_node L) as [node|e3]; cbn; [|reflexivity].
    destruct (Library.is_available L) as [[|]|e4]; cbn; [|reflexivity|reflexivity].
    destruct (Library.list_devices L) as [ds|e5]; cbn; [|reflexivity].
    pose proof (loop_keeps_globals dec ds (bind_modules g)) as Hloop.
    unfold bind_modules, globals_of in Hloop. cbn zeta in Hloop.
    destruct (for_each ds (report_device dec) _) as [[g' t] r]. cbn in *. tauto. }
  split; [exact H5|]. split; [exact H7|].
  split; [intros n F; specialize (H5 _ F); discriminate H5|].
  split; [intros attr F; specialize (H5 _ F); discriminate H5|].
  split; [exact Hkeep|].
  split; [intros module F; specialize (H7 _ F); discriminate H7|].
  split; [intros F; specialize (H7 _ F); discriminate H7|].
  split; [intros F; specialize (H7 _ F); discriminate H7|].
  split; [intros F; specialize (H7 _ F); discriminate H7|].
  split; [intros attr F; specialize (H7 _ F); discriminate H7|].
  split; [intros n F; specialize (H7 _ F); cbn in H7;
          apply Z.eqb_eq in H7; exact H7|].
  split.
  - intros g'. exact (cell5_same_run dec L g' g).
  - intros g' Hcuda. exact (cell7_frame dec L g' g Hcuda).
Qed.

(** ** The banner does not depend on CUDA *)

Lemma loop_printed_lines t :
  forallb is_loop_event t = true ->
  Forall (fun line => line = 106%nat \/ line = 109%nat) (printed_lines t).
Proof.
  induction t as [|[c r|line text] t IH]; cbn; intros H.
  - constructor.
  - apply andb_prop in H. tauto.
  - apply andb_prop in H. destruct H as [Hline Hrest].
    apply Nat.eqb_eq in Hline. constructor; auto.
Qed.

(** X9. Once both imports and [platform.node()] have succeeded, the
    availability check has printed the three banner lines, with the host
    name in the second, before it asks anything about CUDA: the banner is
    the beginning of the output whatever [is_available] and [list_devices]
    answer, also when they raise, and everything printed after it comes from
    line 106 or line 109. *)
Theorem banner_before_cuda :
  forall bytes_decode L g node,
    Library.import_module L "platform" = Ok tt ->
    Library.import_module L "numba.cuda" = Ok tt ->
    Library.platform_node L = Ok node ->
    exists rest,
      events_of (cell5 bytes_decode L g) = (banner node ++ rest)%list /\
      stdout (events_of (cell5 bytes_decode L g)) =
        (banner_text node ++ stdout rest)%list /\
      (forall c, called c (banner node) ->
         c <> CudaIsAvailable /\ c <> CudaListDevices) /\
      Forall (fun line => line = 106%nat \/ line = 109%nat) (printed_lines rest).
Proof.
  intros dec L g node H1 H2 H3.
  assert (Hbanner : forall c, called c (banner node) ->
                      c <> CudaIsAvailable /\ c <> CudaListDevices).
  { intros c F. in_log; split; discriminate. }
  unfold events_of. unfold_cell.
  rewrite H1; cbn. rewrite H2; cbn. rewrite H3; cbn.
  destruct (Library.is_available L) as [[|]|e4]; cbn.
  - destruct (Library.list_devices L) as [ds|e5]; cbn.
    + pose proof (loop_events dec ds (bind_modules g)) as Hloop.
      unfold bind_modules, events_of in Hloop.
      destruct (for_each ds (report_device dec) _) as [[g' t] r]. cbn in *.
      eexists. split; [reflexivity|]. split; [reflexivity|].
      split; [exact Hbanner|]. cbn. apply loop_printed_lines. exact Hloop.
    + eexists. split; [reflexivity|]. split; [reflexivity|].
      split; [exact Hbanner|]. constructor.
  - eexists. split; [reflexivity|]. split; [reflexivity|].
    split; [exact Hbanner|]. cbn. constructor; [right; reflexivity | constructor].
  - eexists. split; [reflexivity|]. split; [reflexivity|].
    split; [exact Hbanner|]. constructor.
Qed.

Lemma banner_before_cuda_witness :
  exists rest,
    events_of (cell5 decode_ascii broken_driver Globals.fresh) =
      (banner "ridcully" ++ rest)%list /\
    stdout (events_of (cell5 decode_ascii broken_driver Globals.fresh)) =
      (banner_text "ridcully" ++ stdout rest)%list /\
    (forall c, called c (banner "ridcully") ->
       c <> CudaIsAvailable /\ c <> CudaListDevices) /\
    Forall (fun line => line = 106%nat \/ line = 109%nat) (printed_lines rest).
Proof.
  apply (banner_before_cuda decode_ascii broken_driver Globals.fresh "ridcully");
    reflexivity.
Defined.

(** ** At most one verdict *)

(** X10. In every run, whatever the libraries answer, the compute-capability
    check prints at most one line and never both the sufficiency and the
    insufficiency message; it selects a device at most once and reads the
    capability at most twice. *)
Theorem at_most_one_verdict :
  forall bytes_decode L g,
    let t := events_of (cell7 bytes_decode L g) in
    (length (stdout t) <= 1)%nat /\
    ~ (printed 139 t /\ printed 141 t) /\
    (count_calls (CudaSelectDevice 0) t <= 1)%nat /\
    (count_calls read_capability t <= 2)%nat.
Proof.
  intros dec L g t.
  destruct (cell7_bounds dec L g) as [Hout [Hsel Hread]].
  split; [exact Hout|]. split; [|split; assumption].
  subst t. clear Hout Hsel Hread. unfold events_of. unfold_cell.
  split_run; intros [F1 F2]; in_log.
Qed.

(** ** The output of a whole execution *)

(** X12. When the availability check completes and device 0 can be selected
    and read, the output of the whole execution is the output of the
    availability check followed by exactly one verdict line, and both cells
    complete, whatever the availability check found: the verdict is about
    the device that [select_device(0)] returns, not about the devices
    listed. *)
Theorem execution_output :
  forall bytes_decode L h major minor b s,
    result_of (cell5 bytes_decode L Globals.fresh) = Ok tt ->
    Library.select_device L 0 = Ok h ->
    Device.compute_capability h = Ok (major, minor) ->
    Device.name h = Ok b ->
    bytes_decode b = Ok s ->
    stdout (flat_map log (run_notebook bytes_decode L)) =
      (stdout (events_of (cell5 bytes_decode L Globals.fresh)) ++
       [if (major >=? 2) && (minor >=? 1)
        then sufficient_text s else insufficient_text])%list /\
    map status (run_notebook bytes_decode L) = [Ok tt; Ok tt] /\
    map index (run_notebook bytes_decode L) = [5; 7]%nat.
Proof.
  intros dec L h major minor b s Hdone Hsel Hcc Hname Hdec.
  pose proof (cell5_binds_cuda dec L Globals.fresh Hdone) as Hcuda.
  rewrite run_notebook_unfold.
  destruct (cell5 dec L Globals.fresh) as [[g5 t5] [[]|e5]];
    unfold result_of, events_of, globals_of in *; cbn in Hdone, Hcuda |- *;
    [|discriminate].
  assert (H7 : exists g7 t7,
             cell7 dec L g5 = (g7, t7, Ok tt) /\
             stdout t7 = [if (major >=? 2) && (minor >=? 1)
                          then sufficient_text s else insufficient_text]).
  { destruct (Z.geb_spec major 2) as [Hmajor|Hlow].
    - destruct (Z.geb_spec minor 1) as [Hminor|Hlow].
      + rewrite (cell7_sufficient dec L g5 Hcuda h Hsel major minor Hcc b s
                   Hmajor Hminor Hname Hdec).
        eexists _, _. split; reflexivity.
      + rewrite (cell7_minor_low dec L g5 Hcuda h Hsel major minor Hcc Hmajor Hlow).
        eexists _, _. split; reflexivity.
    - rewrite (cell7_major_low dec L g5 Hcuda h Hsel major minor Hcc Hlow).
      eexists _, _. split; reflexivity. }
  destruct H7 as [g7 [t7 [Hrun Hout]]]. rewrite Hrun. cbn.
  rewrite app_nil_r, stdout_app, Hout. auto.
Qed.

Lemma execution_output_witness :
  let L := host [gtx680; gt710] in
  result_of (cell5 decode_ascii L Globals.fresh) = Ok tt /\
  Library.select_device L 0 = Ok gtx680 /\
  stdout (flat_map log (run_notebook decode_ascii L)) =
    (stdout (events_of (cell5 decode_ascii L Globals.fresh)) ++
     [if (3 >=? 2) && (0 >=? 1)
      then sufficient_text "GeForce GTX 680" else insufficient_text])%list /\
  map status (run_notebook decode_ascii L) = [Ok tt; Ok tt] /\
  map index (run_notebook decode_ascii L) = [5; 7]%nat.
Proof.
  split; [reflexivity|]. split; [reflexivity|].
  apply (execution_output decode_ascii (host [gtx680; gt710]) gtx680 3 0
           (list_byte_of_string "GeForce GTX 680") "GeForce GTX 680");
    reflexivity.
Defined.

(** ** One pass over the notebook *)

Lemma stdout_at_app line t1 t2 :
  stdout_at line (t1 ++ t2) = (stdout_at line t1 ++ stdout_at line t2)%list.
Proof.
  induction t1 as [|[c r|l text] t1 IH]; cbn; [reflexivity|assumption|].
  destruct (Nat.eqb l line); cbn; now rewrite IH.
Qed.

Lemma stdout_at_le_stdout line t :
  (length (stdout_at line t) <= length (stdout t))%nat.
Proof.
  induction t as [|[c r|l text] t IH]; cbn; [lia|assumption|].
  destruct (Nat.eqb l line); cbn; lia.
Qed.

(** A line outside the range of a log's prints printed nothing. *)
Lemma stdout_at_outside lo hi line t :
  within lo hi t -> (line < lo \/ hi < line)%nat -> stdout_at line t = [].
Proof.
  intros [_ Hrange] Hout.
  induction t as [|[c r|l text] t IH]; cbn in *; [reflexivity|auto|].
  inversion Hrange as [|? ? Hl Hrest]; subst.
  destruct (Nat.eqb_spec l line); [lia|auto].
Qed.

Lemma loop_stdout_at_other line t :
  forallb is_loop_event t = true -> line <> 106%nat -> stdout_at line t = [].
Proof.
  intros Hloop Hline.
  induction t as [|[c r|l text] t IH]; cbn in *; [reflexivity| |].
  - apply andb_prop in Hloop. tauto.
  - apply andb_prop in Hloop. destruct Hloop as [Hl Hrest].
    apply Nat.eqb_eq in Hl. subst l.
    destruct (Nat.eqb_spec 106 line); [congruence|auto].
Qed.

(** One goal for each member of a conjunction or of an explicit list. *)
Ltac each_goal :=
  repeat match goal with
         | |- _ /\ _ => split
         | |- Forall _ (_ :: _) => apply Forall_cons
         | |- Forall _ [] => apply Forall_nil
         end.

(** What a completed availability check has called and printed. *)
Lemma cell5_completed_once bytes_decode L g :
  result_of (cell5 bytes_decode L g) = Ok tt ->
  let t := events_of (cell5 bytes_decode L g) in
  Forall (fun c => count_calls c t = 1%nat)
    [Import "platform"; Import "numba.cuda"; PlatformNode; CudaIsAvailable] /\
  (count_calls CudaListDevices t <= 1)%nat /\
  count_calls (CudaSelectDevice 0) t = 0%nat /\
  Forall (fun line => length (stdout_at line t) = 1%nat) [97; 98; 99]%nat /\
  (length (stdout_at 109 t) <= 1)%nat.
Proof.
  intros Hdone.
  destruct (cell5_completes_header bytes_decode L g Hdone)
    as [H1 [H2 [node [H3 [H4|[H4 [ds [Hlist _]]]]]]]]; cbn zeta.
  - rewrite (cell5_unavailable bytes_decode L g node H1 H2 H3 H4).
    unfold events_of; cbn.
    each_goal; cbn; lia.
  - rewrite (cell5_available bytes_decode L g node ds H1 H2 H3 H4 Hlist).
    pose proof (loop_events bytes_decode ds (bind_modules g)) as Hloop.
    destruct (for_each ds (report_device bytes_decode) (bind_modules g))
      as [[g' t] r].
    unfold events_of in *; cbn in *.
    each_goal; cbn;
      rewrite ?(loop_count_calls _ t Hloop) by reflexivity;
      rewrite ?(loop_stdout_at_other _ t Hloop) by discriminate;
      cbn; lia.
Qed.

(** What a compute-capability check that starts with [cuda] bound has called
    and printed. *)
Lemma cell7_started_once bytes_decode L g :
  Globals.cuda g = true ->
  let t := events_of (cell7 bytes_decode L g) in
  Forall (fun c => count_calls c t = 0%nat)
    [Import "platform"; Import "numba.cuda"; PlatformNode; CudaIsAvailable;
     CudaListDevices] /\
  count_calls (CudaSelectDevice 0) t = 1%nat /\
  (length (stdout t) <= 1)%nat.
Proof.
  intros Hg. unfold events_of. unfold_cell. rewrite Hg; cbn.
  split_run;
    each_goal; cbn; lia.
Qed.

(** C10. Execution is a single sequential pass.  In an execution in which
    the availability check completes, the log is that of the availability
    check followed by that of the compute-capability check, each run once:
    each import, [platform.node()], [cuda.is_available()] and
    [cuda.select_device(0)] is called exactly once and [cuda.list_devices()]
    at most once; the banner lines 97, 98 and 99 are printed exactly once and
    lines 109, 139 and 141 at most once.  Each cell prints in the order of
    its lines (97 to 109, then 139 to 141), so the [print] statements of the
    whole execution occur in program-text order, the availability check's
    before the capability check's. *)
Theorem one_pass_in_text_order :
  forall bytes_decode L,
    result_of (cell5 bytes_decode L Globals.fresh) = Ok tt ->
    let t5 := events_of (cell5 bytes_decode L Globals.fresh) in
    let t7 := events_of (cell7 bytes_decode L
                           (globals_of (cell5 bytes_decode L Globals.fresh))) in
    let t := flat_map log (run_notebook bytes_decode L) in
    t = (t5 ++ t7)%list /\
    Forall (fun c => count_calls c t = 1%nat)
      [Import "platform"; Import "numba.cuda"; PlatformNode; CudaIsAvailable;
       CudaSelectDevice 0] /\
    (count_calls CudaListDevices t <= 1)%nat /\
    Forall (fun line => length (stdout_at line t) = 1%nat) [97; 98; 99]%nat /\
    Forall (fun line => (length (stdout_at line t) <= 1)%nat) [109; 139; 141]%nat /\
    within 97 109 t5 /\
    within 139 141 t7 /\
    StronglySorted Nat.le (printed_lines t).
Proof.
  intros dec L Hdone t5 t7 t.
  pose proof (cell5_binds_cuda dec L Globals.fresh Hdone) as Hcuda.
  pose proof (cell5_completed_once dec L Globals.fresh Hdone) as H5.
  pose proof (cell5_in_text_order dec L Globals.fresh) as Hw5.
  pose proof (cell7_started_once dec L _ Hcuda) as H7.
  pose proof (cell7_in_text_order dec L
                (globals_of (cell5 dec L Globals.fresh))) as Hw7.
  cbn zeta in H5, H7. fold t5 in H5, Hw5. fold t7 in H7, Hw7.
  assert (Ht : t = (t5 ++ t7)%list).
  { subst t t5 t7. rewrite run_notebook_unfold.
    destruct (cell5 dec L Globals.fresh) as [[g5 t5] [[]|e5]];
      unfold result_of, events_of, globals_of in *; cbn in Hdone |- *;
      [|discriminate].
    destruct (cell7 dec L g5) as [[g7 t7] [[]|e7]]; cbn;
      rewrite app_nil_r; reflexivity. }
  clearbody t5 t7 t.
  destruct H5 as [H5calls [H5list [H5sel [H5banner H5none]]]].
  destruct H7 as [H7calls [H7sel H7out]].
  pose proof (stdout_at_outside 139 141) as Hout7.
  pose proof (stdout_at_outside 97 109) as Hout5.
  pose proof (stdout_at_le_stdout 139 t7) as Hle139.
  pose proof (stdout_at_le_stdout 141 t7) as Hle141.
  split; [exact Ht|]. rewrite Ht.
  repeat match goal with
         | H : Forall _ (_ :: _) |- _ => inversion H; clear H; subst
         | H : Forall _ [] |- _ => clear H
         end.
  split; [|split; [|split; [|split; [|split; [|split]]]]].
  - each_goal; rewrite count_calls_app; lia.
  - rewrite count_calls_app. lia.
  - each_goal; rewrite stdout_at_app, length_app,
      (Hout7 _ t7 Hw7) by lia; cbn; lia.
  - each_goal; rewrite stdout_at_app, length_app.
    + rewrite (Hout7 109%nat t7 Hw7) by lia. cbn. lia.
    + rewrite (Hout5 139%nat t5 Hw5) by lia. cbn. lia.
    + rewrite (Hout5 141%nat t5 Hw5) by lia. cbn. lia.
  - exact Hw5.
  - exact Hw7.
  - apply (within_app 97 109 141 t5 t7); [lia | exact Hw5 |].
    apply (within_weaken 139 141); [lia | lia | exact Hw7].
Qed.

Lemma one_pass_in_text_order_witness :
  let L := host [gtx680; k20] in
  let t5 := events_of (cell5 decode_ascii L Globals.fresh) in
  let t7 := events_of (cell7 decode_ascii L
                         (globals_of (cell5 decode_ascii L Globals.fresh))) in
  let t := flat_map log (run_notebook decode_ascii L) in
  result_of (cell5 decode_ascii L Globals.fresh) = Ok tt /\
  t = (t5 ++ t7)%list /\
  Forall (fun c => count_calls c t = 1%nat)
    [Import "platform"; Import "numba.cuda"; PlatformNode; CudaIsAvailable;
     CudaSelectDevice 0] /\
  (count_calls CudaListDevices t <= 1)%nat /\
  Forall (fun line => length (stdout_at line t) = 1%nat) [97; 98; 99]%nat /\
  Forall (fun line => (length (stdout_at line t) <= 1)%nat) [109; 139; 141]%nat /\
  within 97 109 t5 /\
  within 139 141 t7 /\
  StronglySorted Nat.le (printed_lines t).
Proof.
  split; [reflexivity|].
  apply (one_pass_in_text_order decode_ascii (host [gtx680; k20])).
  reflexivity.
Defined.
